(** * label_studio/data_export/api.py: the export views

    A shallow embedding of the request handlers of the data-export API
    (synchronous export, legacy export-file listing, the reverse-proxy
    auth check, export-job list/create/retrieve/delete and the export
    download) together with the Python and Django operations they are
    written with.

    Conventions.
    - A Python [str] is a [string]; a character stands for a code point
      below 256.  Python [int] is [Z].
    - A raised exception is the [Raise] branch of [result]; handlers are
      functions into [result], and the handlers that write to the
      database thread it explicitly.
    - A database table is the list of its rows, in the order the
      database yields them.  Primary keys are unique in a real table;
      a statement that depends on it has the [NoDup] of the keys as a
      premise.
    - The handlers are the methods of the view classes.  What the
      framework does around them (routing, the view-level permission
      check of [permission_required], rendering) is outside; of its
      exception handling only the status it answers with is modelled
      ([response_status]).
    - Collaborators that live outside this file of the repository
      (settings, [core.utils.common], the [Export] model's methods, the
      serializers, [DataExport]) are the fields of the classes
      [Settings] and [Collaborators]; every statement holds for all of
      them. *)

From Stdlib Require Import ZArith Ascii DecimalString DecimalPos.
From stdpp Require Import base list strings gmap sorting.

(** ** Python: exceptions, strings, lists *)

Module Py.

Inductive exn : Set :=
| ValueError
| KeyError
| IndexError
| AttributeError
| Http404
| PermissionDenied
| MultipleObjectsReturned.

Inductive result (A : Type) : Type :=
| Ok (a : A)
| Raise (e : exn).
Global Arguments Ok {A} a.
Global Arguments Raise {A} e.

Global Instance result_ret : MRet result := @Ok.
Global Instance result_bind : MBind result := λ A B f m,
  match m with Ok a => f a | Raise e => Raise e end.
Global Instance result_fmap : FMap result := λ A B f m,
  match m with Ok a => Ok (f a) | Raise e => Raise e end.

(** [s.endswith(suffix)] *)
Fixpoint endswith (s suffix : string) : bool :=
  if String.eqb s suffix then true
  else match s with
       | EmptyString => false
       | String _ s' => endswith s' suffix
       end.

(** [s.split(sep)] for a one-character separator, which is how every
    call of this file uses it.  The result is never empty. *)
Fixpoint split (sep : ascii) (s : string) : list string :=
  match s with
  | EmptyString => [EmptyString]
  | String c s' =>
      if Ascii.eqb c sep then EmptyString :: split sep s'
      else match split sep s' with
           | h :: t => String c h :: t
           | [] => [String c EmptyString]
           end
  end.

(** [l[i]] for [i >= 0], and [l[-1]]. *)
Definition getitem {A} (l : list A) (i : nat) : result A :=
  match l !! i with Some x => Ok x | None => Raise IndexError end.

Definition getitem_last {A} (l : list A) : result A :=
  match last l with Some x => Ok x | None => Raise IndexError end.

(** [s.replace(old, new)]: every non-overlapping occurrence, leftmost
    first.  [skip] counts the characters of a matched occurrence that
    are still to be dropped. *)
Fixpoint replace_go (old new : string) (skip : nat) (s : string) : string :=
  match s with
  | EmptyString => EmptyString
  | String c s' =>
      match skip with
      | S k => replace_go old new k s'
      | O =>
          if String.prefix old s
          then new +:+ replace_go old new (String.length old - 1) s'
          else String c (replace_go old new 0 s')
      end
  end.

Fixpoint replace_empty (new : string) (s : string) : string :=
  match s with
  | EmptyString => new
  | String c s' => new +:+ String c (replace_empty new s')
  end.

Definition replace (s old new : string) : string :=
  match old with
  | EmptyString => replace_empty new s
  | _ => replace_go old new 0 s
  end.

(** [str(n)] for an [int]. *)
Definition str (n : Z) : string := NilZero.string_of_int (Z.to_int n).

(** [int(s)] for a [str]: surrounding whitespace is stripped, one sign
    is allowed, and the digits may be grouped by single underscores.
    Anything else raises [ValueError]. *)
Definition isspace (c : ascii) : bool :=
  let n := N_of_ascii c in
  ((9 <=? n) && (n <=? 13) || (28 <=? n) && (n <=? 32)
   || (n =? 133) || (n =? 160))%N.

Fixpoint lstrip (s : string) : string :=
  match s with
  | EmptyString => EmptyString
  | String c s' => if isspace c then lstrip s' else s
  end.

Definition strip (s : string) : string :=
  String.rev (lstrip (String.rev (lstrip s))).

Definition digit_value (c : ascii) : option Z :=
  let n := N_of_ascii c in
  if ((48 <=? n) && (n <=? 57))%N then Some (Z.of_N (n - 48)) else None.

Fixpoint parse_digits (acc : Z) (after_digit : bool) (s : string) : option Z :=
  match s with
  | EmptyString => if after_digit then Some acc else None
  | String c s' =>
      match digit_value c with
      | Some d => parse_digits (10 * acc + d)%Z true s'
      | None =>
          if Ascii.eqb c "_" && after_digit then parse_digits acc false s'
          else None
      end
  end.

Definition int (s : string) : result Z :=
  let body := strip s in
  let signed :=
    match body with
    | String "+" r => parse_digits 0 false r
    | String "-" r => Z.opp <$> parse_digits 0 false r
    | _ => parse_digits 0 false body
    end in
  match signed with Some n => Ok n | None => Raise ValueError end.

(** [sorted(l)] on strings, and [l[::-1]]. *)
Definition sorted (l : list string) : list string := merge_sort String.le l.

(** [d.pop(key)] on a dict. *)
Definition pop {V} (d : gmap string V) (key : string) : result (V * gmap string V) :=
  match d !! key with
  | Some v => Ok (v, delete key d)
  | None => Raise KeyError
  end.

End Py.
Import Py.


(** ** Django and the REST framework: requests, responses, querysets *)

(** JSON-like Python values: serializer output, validated request data
    and the bodies of REST responses. *)
#[local] Unset Elimination Schemes.
Inductive json : Type :=
| JNone
| JBool (b : bool)
| JInt (n : Z)
| JStr (s : string)
| JList (l : list json)
| JDict (d : list (string * json)).
#[local] Set Elimination Schemes.

Module Django.

(** [request.GET] is a [QueryDict]: the key/value pairs of the query
    string in the order they were sent.  A key may occur several
    times; [get] answers with its last value, [getlist] with all. *)
Abbreviation QueryDict := (list (string * string)).

Definition contains (q : QueryDict) (key : string) : bool :=
  bool_decide (key ∈ q.*1).

Definition getlist (q : QueryDict) (key : string) : list string :=
  (filter (λ kv, kv.1 = key) q).*2.

Definition get (q : QueryDict) (key : string) : option string :=
  last (getlist q key).

Definition get_default (q : QueryDict) (key dflt : string) : string :=
  default dflt (get q key).

(** [HttpResponse] and the REST framework's [Response]: a body, a
    status and the headers, [Content-Type] among them. *)
Inductive body : Type :=
| Text (s : string)
| FileStream (bytes : string)
| Data (d : json).

Record HttpResponse : Type := mkResponse {
  content : body;
  status_code : Z;
  headers : gmap string string;
}.

Definition default_content_type : string := "text/html; charset=utf-8".

Definition HttpResponse_new (c : body) (content_type : string) (status : Z)
  : HttpResponse :=
  {| content := c; status_code := status;
     headers := {[ "Content-Type" := content_type ]} |}.

(** The REST framework's [Response(data, status)], rendered as JSON. *)
Definition Response (d : json) (status : Z) : HttpResponse :=
  HttpResponse_new (Data d) "application/json" status.

(** [response[header] = value] *)
Definition setitem (r : HttpResponse) (header value : string) : HttpResponse :=
  {| content := content r; status_code := status_code r;
     headers := <[ header := value ]> (headers r) |}.

Definition HTTP_200_OK : Z := 200.
Definition HTTP_422_UNPROCESSABLE_ENTITY : Z := 422.

(** [queryset.get(pk=...)] behind [get_object_or_404]: no row is
    [Http404], several rows are [MultipleObjectsReturned]. *)
Definition get_object_or_404 {A} (queryset : list A) (pk_of : A → Z) (pk : Z)
  : result A :=
  match filter (λ x, pk_of x = pk) queryset with
  | [] => Raise Http404
  | [x] => Ok x
  | _ => Raise MultipleObjectsReturned
  end.

Definition check_object_permissions (allowed : bool) : result unit :=
  if allowed then Ok () else Raise PermissionDenied.

(** What the framework answers when a handler raises: [Http404] and
    [PermissionDenied] have their own status, anything else is a
    server error. *)
Definition response_status (r : result HttpResponse) : Z :=
  match r with
  | Ok resp => status_code resp
  | Raise Http404 => 404
  | Raise PermissionDenied => 403
  | Raise _ => 500
  end.

(** [qs.filter(id__in=values)]: every value goes through the integer
    field's [int(value)], which raises [ValueError] on a value that is
    not a number. *)
Definition filter_id_in {A} (pk_of : A → Z) (queryset : list A)
    (values : list string) : result (list A) :=
  ns ← mapM int values;
  mret (filter (λ x, pk_of x ∈ ns) queryset).

(** [qs.filter(rel__isnull=False)] joins the related table: one row
    per related object.  [distinct()] removes the repeated rows. *)
Definition filter_isnull_false {A B} (rel : A → list B) (queryset : list A)
  : list A :=
  x ← queryset; (λ _, x) <$> rel x.

Definition distinct {A} `{EqDecision A} (queryset : list A) : list A :=
  remove_dups queryset.

(** [qs.order_by('-field')] for an integer-valued field. *)
Definition descending {A} (field : A → Z) : relation A :=
  λ x y, (field y ≤ field x)%Z.
Global Instance descending_dec {A} (field : A → Z) x y :
  Decision (descending field x y) := decide (field y ≤ field x)%Z.

Definition order_by_desc {A} (field : A → Z) (queryset : list A) : list A :=
  merge_sort (descending field) queryset.

End Django.
Import Django.

(** ** The models the views read and write *)

Module User.
(** Modelled from the spec: the user model is declared outside src/.
    The views read its key and its [active_organization]. *)
Record t : Type := { id : Z; active_organization : Z }.
End User.

Module Project.
(** Modelled from the spec: [projects.models.Project] is not under src/.
    A project is the scoping entity of tasks and exports; the views
    select projects by key and by [organization]. *)
Record t : Type := { id : Z; organization : Z }.
End Project.

Module Task.
(** Modelled from the spec: [tasks.models.Task] is not under src/.  A
    task is a unit of labeling work that belongs to exactly one project
    and has annotations and predictions. *)
Record t : Type := {
  id : Z;
  project : Z;
  data : string;
  annotations : list Z;
  predictions : list Z;
}.
Global Instance eq_dec : EqDecision t.
Proof. solve_decision. Defined.
End Task.

Module FieldFile.
(** A file attribute: [name] is [None] when no file is attached. *)
Record t : Type := { name : option string; bytes : string }.
End FieldFile.

Module ExportModel.
(** Modelled from the spec: the [Export] model is declared in
    [models.py], which is not under src/.  (The module cannot be called
    [Export], a reserved word here.)  The spec gives it a status,
    a file handle, the filters used and creation metadata, and says it
    belongs to exactly one project.  [Status] is left abstract. *)
Record t (Status : Type) : Type := {
  id : Z;
  project : Z;
  created_by : Z;
  created_at : Z;
  status : Status;
  file : FieldFile.t;
  fields : gmap string json;
}.
Global Arguments id {Status} _.
Global Arguments project {Status} _.
Global Arguments created_by {Status} _.
Global Arguments created_at {Status} _.
Global Arguments status {Status} _.
Global Arguments file {Status} _.
Global Arguments fields {Status} _.
End ExportModel.

Module DB.
Record t (Status : Type) : Type := {
  projects : list Project.t;
  tasks : list Task.t;
  exports : list (ExportModel.t Status);
  export_id_seq : Z;
}.
Global Arguments projects {Status} _.
Global Arguments tasks {Status} _.
Global Arguments exports {Status} _.
Global Arguments export_id_seq {Status} _.
End DB.

Module Request.
Record t : Type := {
  user : User.t;
  GET : QueryDict;
  META : gmap string string;
}.
End Request.

Module Serializer.
(** A REST serializer after validation: [validated_data] and the
    [instance] that [save] fills in. *)
Record t (Status : Type) : Type := {
  validated_data : gmap string json;
  instance : option (ExportModel.t Status);
}.
Global Arguments validated_data {Status} _.
Global Arguments instance {Status} _.
End Serializer.

(** ** Collaborators outside this file *)

(** The two settings the views read. *)
Class Settings : Type := {
  EXPORT_URL_ROOT : string;
  CONVERTER_DOWNLOAD_RESOURCES : bool;
}.

(** Everything the views call that is defined elsewhere in the
    repository: the [Export] model's status type and methods, the helpers
    of [core.utils.common], the project manager's [for_user], the object
    permission check, the serializers and [DataExport]. *)
Class Collaborators : Type := {
  Status : Type;
  Status_eq_dec :: EqDecision Status;
  COMPLETED : Status;
  Status_default : Status;
  bool_from_request : QueryDict → string → bool → result bool;
  get_object_with_check_and_log :
    Request.t → list Project.t → Z → result Project.t;
  for_user : User.t → list Project.t → list Project.t;
  has_project_permission : Request.t → Project.t → bool;
  has_export_permission : Request.t → ExportModel.t Status → bool;
  ExportDataSerializer : Task.t → json;
  ExportSerializer : ExportModel.t Status → json;
  generate_export_file :
    Project.t → list json → string → bool → QueryDict
    → result (string * string * string);
  convert_file : ExportModel.t Status → string → result (option FieldFile.t);
  run_file_exporting :
    ExportModel.t Status → json → json → json → DB.t Status
    → result (DB.t Status);
}.

(** Modelled from the spec: [core.utils.common.batch] is not under src/.
    The spec has the serialization batched with batch size 1000:
    [batch iterable n] cuts [iterable] into consecutive slices of [n]
    elements, the last one possibly shorter. *)
Definition batch {A} (iterable : list A) (n : nat) : list (list A) :=
  (λ i, take n (drop (i * n) iterable))
    <$> seq 0 ((length iterable + n - 1) `div` n).

Definition dquote : string := String (ascii_of_nat 34) EmptyString.

(** ** The views *)

Section Views.
Context {settings : Settings} {collab : Collaborators}.

#[local] Abbreviation Export := (ExportModel.t Status).
#[local] Abbreviation Database := (DB.t Status).

(** The generic view's [get_object]: look the object up in the view's
    queryset, then check the object permissions. *)
Definition get_object {A} (request : Request.t) (queryset : list A)
    (pk_of : A → Z) (allowed : Request.t → A → bool) (pk : Z) : result A :=
  obj ← get_object_or_404 queryset pk_of pk;
  _ ← check_object_permissions (allowed request obj);
  mret obj.

(** [Project.objects.filter(organization=request.user.active_organization)],
    the [get_queryset] of [ExportAPI] and [ProjectExportFiles]. *)
Definition organization_projects (request : Request.t) (db : Database)
  : list Project.t :=
  filter (λ p, Project.organization p
               = User.active_organization (Request.user request))
         (DB.projects db).

(** *** ExportAPI.get *)

Definition ExportAPI_export_type (GET : QueryDict) : string :=
  if contains GET "exportType"
  then get_default GET "exportType" "JSON"
  else get_default GET "export_type" "JSON".

Definition ExportAPI_only_finished (GET : QueryDict) : result bool :=
  negb <$> bool_from_request GET "download_all_tasks" false.

Definition ExportAPI_download_resources (GET : QueryDict) : result bool :=
  if contains GET "download_resources"
  then bool_from_request GET "download_resources" true
  else Ok CONVERTER_DOWNLOAD_RESOURCES.

(** The queryset [query] of the handler. *)
Definition ExportAPI_query (project : Project.t) (tasks_ids : list string)
    (only_finished : bool) (db : Database) : result (list Task.t) :=
  let tasks := filter (λ t, Task.project t = Project.id project) (DB.tasks db) in
  tasks ← (if bool_decide (tasks_ids ≠ [])
           then filter_id_in Task.id tasks tasks_ids
           else Ok tasks);
  let query := tasks in
  mret (if only_finished
        then distinct (filter_isnull_false Task.annotations query)
        else query).

(** The rows handed to [ExportDataSerializer], batch after batch. *)
Definition ExportAPI_batches (query : list Task.t) : list (list Task.t) :=
  let task_ids := Task.id <$> query in
  (λ _task_ids, filter (λ t, Task.id t ∈ _task_ids) query)
    <$> batch task_ids 1000.

Definition ExportAPI_rows (query : list Task.t) : list Task.t :=
  concat (ExportAPI_batches query).

Definition ExportAPI_response (export_stream content_type filename : string)
  : HttpResponse :=
  let response := HttpResponse_new (FileStream export_stream) content_type 200 in
  let response :=
    setitem response "Content-Disposition"
      ("attachment; filename=" +:+ dquote +:+ filename +:+ dquote) in
  setitem response "filename" filename.

Definition ExportAPI_get (request : Request.t) (pk : Z) (db : Database)
  : result HttpResponse :=
  project ← get_object request (organization_projects request db)
              Project.id has_project_permission pk;
  let export_type := ExportAPI_export_type (Request.GET request) in
  only_finished ← ExportAPI_only_finished (Request.GET request);
  let tasks_ids := getlist (Request.GET request) "ids[]" in
  download_resources ← ExportAPI_download_resources (Request.GET request);
  query ← ExportAPI_query project tasks_ids only_finished db;
  let tasks := ExportDataSerializer <$> ExportAPI_rows query in
  '(export_stream, content_type, filename) ←
    generate_export_file project tasks export_type download_resources
      (Request.GET request);
  mret (ExportAPI_response export_stream content_type filename).

(** *** ProjectExportFiles.get *)

Fixpoint ProjectExportFiles_paths (pk : Z) (listdir : list string)
  : result (list string) :=
  match listdir with
  | [] => Ok []
  | name :: rest =>
      if endswith name ".json" && negb (endswith name "-info.json") then
        project_id ← getitem (split "-" name) 0;
        paths ← ProjectExportFiles_paths pk rest;
        if bool_decide (str pk = project_id)
        then mret ((EXPORT_URL_ROOT +:+ name) :: paths)
        else mret paths
      else ProjectExportFiles_paths pk rest
  end.

Definition ProjectExportFiles_item (p : string) : result json :=
  segment ← getitem (split "/" p) 2;
  name ← getitem (split "." segment) 0;
  mret (JDict [("name", JStr name); ("url", JStr p)]).

Definition ProjectExportFiles_get (request : Request.t) (pk : Z)
    (listdir : list string) (db : Database) : result HttpResponse :=
  project ← get_object request (organization_projects request db)
              Project.id has_project_permission pk;
  project ← get_object_with_check_and_log request (DB.projects db) pk;
  _ ← check_object_permissions (has_project_permission request project);
  paths ← ProjectExportFiles_paths pk listdir;
  items ← mapM ProjectExportFiles_item (reverse (sorted paths));
  mret (Response (JDict [("export_files", JList items)]) HTTP_200_OK).

(** *** ProjectExportFilesAuthCheck.get *)

Definition ProjectExportFilesAuthCheck_get (request : Request.t)
    (db : Database) : result HttpResponse :=
  original_url ← match Request.META request !! "HTTP_X_ORIGINAL_URI" with
                 | Some v => Ok v
                 | None => Raise KeyError
                 end;
  let filename := replace original_url "/export/" EmptyString in
  project_id ← getitem (split "-" filename) 0;
  match int project_id with
  | Raise ValueError =>
      mret (Response (JDict [("detail", JStr "Incorrect filename in export")])
              HTTP_422_UNPROCESSABLE_ENTITY)
  | Raise e => Raise e
  | Ok pk =>
      _ ← get_object_or_404 (organization_projects request db) Project.id pk;
      mret (Response (JDict [("detail", JStr "auth ok")]) HTTP_200_OK)
  end.

(** *** ExportListAPI *)

(** [_get_project], written out identically in [ExportListAPI],
    [ExportDetailAPI] and [ExportDownloadAPI]. *)
Definition _get_project (request : Request.t) (pk : Z) (db : Database)
  : result Project.t :=
  let project_pk := pk in
  get_object_or_404 (for_user (Request.user request) (DB.projects db))
    Project.id project_pk.

(** [Export.objects.all().order_by('-created_at')] *)
Definition ExportListAPI_queryset (db : Database) : list Export :=
  order_by_desc ExportModel.created_at (DB.exports db).

Definition ExportListAPI_get_queryset (request : Request.t) (pk : Z)
    (db : Database) : result (list Export) :=
  project ← _get_project request pk db;
  mret (filter (λ e, ExportModel.project e = Project.id project)
          (ExportListAPI_queryset db)).

(** The list action of the generic view. *)
Definition ExportListAPI_get (request : Request.t) (pk : Z) (db : Database)
  : result HttpResponse :=
  queryset ← ExportListAPI_get_queryset request pk db;
  mret (Response (JList (ExportSerializer <$> queryset)) HTTP_200_OK).

(** [serializer.save(project=..., created_by=...)] on the serializer
    of a create request, which has no instance yet: the model
    serializer creates the row from the validated data and the two
    keyword arguments.  The database gives the row its key; [now] is
    the time of the insert. *)
Definition Serializer_save (serializer : Serializer.t Status)
    (project : Project.t) (created_by : User.t) (now : Z) (db : Database)
  : Serializer.t Status * Database :=
  let row : Export :=
    {| ExportModel.id := DB.export_id_seq db;
       ExportModel.project := Project.id project;
       ExportModel.created_by := User.id created_by;
       ExportModel.created_at := now;
       ExportModel.status := Status_default;
       ExportModel.file := {| FieldFile.name := None;
                              FieldFile.bytes := EmptyString |};
       ExportModel.fields := Serializer.validated_data serializer |} in
  ({| Serializer.validated_data := Serializer.validated_data serializer;
      Serializer.instance := Some row |},
   {| DB.projects := DB.projects db;
      DB.tasks := DB.tasks db;
      DB.exports := DB.exports db ++ [row];
      DB.export_id_seq := (DB.export_id_seq db + 1)%Z |}).

Definition ExportListAPI_perform_create (request : Request.t) (pk : Z)
    (now : Z) (serializer : Serializer.t Status) (db : Database)
  : result (Serializer.t Status * Database) :=
  '(task_filter_options, validated_data) ←
    pop (Serializer.validated_data serializer) "task_filter_options";
  '(annotation_filter_options, validated_data) ←
    pop validated_data "annotation_filter_options";
  '(serialization_options, validated_data) ←
    pop validated_data "serialization_options";
  let serializer :=
    {| Serializer.validated_data := validated_data;
       Serializer.instance := Serializer.instance serializer |} in
  project ← _get_project request pk db;
  let '(serializer, db) :=
    Serializer_save serializer project (Request.user request) now db in
  instance ← match Serializer.instance serializer with
             | Some i => Ok i
             | None => Raise AttributeError
             end;
  db ← run_file_exporting instance task_filter_options
         annotation_filter_options serialization_options db;
  mret (serializer, db).

(** *** ExportDetailAPI *)

Definition ExportDetailAPI_get_queryset (request : Request.t) (pk : Z)
    (db : Database) : result (list Export) :=
  project ← _get_project request pk db;
  mret (filter (λ e, ExportModel.project e = Project.id project)
          (DB.exports db)).

(** The retrieve action. *)
Definition ExportDetailAPI_get (request : Request.t) (pk export_pk : Z)
    (db : Database) : result HttpResponse :=
  queryset ← ExportDetailAPI_get_queryset request pk db;
  instance ← get_object request queryset ExportModel.id
               has_export_permission export_pk;
  mret (Response (ExportSerializer instance) HTTP_200_OK).

(** [instance.delete()] *)
Definition Export_delete (instance : Export) (db : Database) : Database :=
  {| DB.projects := DB.projects db;
     DB.tasks := DB.tasks db;
     DB.exports :=
       filter (λ e, ExportModel.id e ≠ ExportModel.id instance) (DB.exports db);
     DB.export_id_seq := DB.export_id_seq db |}.

(** The destroy action. *)
Definition ExportDetailAPI_delete (request : Request.t) (pk export_pk : Z)
    (db : Database) : result (HttpResponse * Database) :=
  queryset ← ExportDetailAPI_get_queryset request pk db;
  instance ← get_object request queryset ExportModel.id
               has_export_permission export_pk;
  mret (Response JNone 204, Export_delete instance db).

(** *** ExportDownloadAPI *)

Definition ExportDownloadAPI_get_queryset (request : Request.t) (pk : Z)
    (db : Database) : result (list Export) :=
  project ← _get_project request pk db;
  mret (filter (λ e, ExportModel.project e = Project.id project)
          (DB.exports db)).

Definition ExportDownloadAPI_get (request : Request.t) (pk export_pk : Z)
    (db : Database) : result HttpResponse :=
  queryset ← ExportDownloadAPI_get_queryset request pk db;
  instance ← get_object request queryset ExportModel.id
               has_export_permission export_pk;
  let export_type := get (Request.GET request) "exportType" in
  if bool_decide (ExportModel.status instance ≠ COMPLETED) then
    mret (HttpResponse_new (Text "Export is not completed")
            default_content_type 404)
  else
    file_ ← match export_type with
            | None => mret (Some (ExportModel.file instance))
            | Some export_type => convert_file instance export_type
            end;
    match file_ with
    | None =>
        mret (HttpResponse_new (Text "Can't get file")
                default_content_type 404)
    | Some file_ =>
        name ← match FieldFile.name file_ with
               | Some n => Ok n
               | None => Raise AttributeError
               end;
        ext ← getitem_last (split "." name);
        let response :=
          HttpResponse_new (FileStream (FieldFile.bytes file_))
            ("application/" +:+ ext) 200 in
        let response :=
          setitem response "Content-Disposition"
            ("attachment; filename=" +:+ dquote +:+ name +:+ dquote) in
        mret (setitem response "filename" name)
    end.

End Views.

(** ** The vocabulary of the specification *)

(** The text of [s] before its first [sep]; all of [s] when it has none. *)
Fixpoint before_first (sep : ascii) (s : string) : string :=
  match s with
  | EmptyString => EmptyString
  | String c s' =>
      if Ascii.eqb c sep then EmptyString else String c (before_first sep s')
  end.

(** [s] ends with [suffix]. *)
Definition ends_with (s suffix : string) : Prop :=
  ∃ p, s = p +:+ suffix.

(** The number of [c] in [s]. *)
Fixpoint occurrences (c : ascii) (s : string) : nat :=
  match s with
  | EmptyString => 0
  | String c' s' => (if Ascii.eqb c' c then 1 else 0) + occurrences c s'
  end.

(** An item of the legacy listing, from its [name] and its [url]. *)
Definition export_file_item (item : string * string) : json :=
  JDict [("name", JStr item.1); ("url", JStr item.2)].

(** Newest first. *)
Definition newest_first {Status} : relation (ExportModel.t Status) :=
  λ e1 e2, (ExportModel.created_at e2 ≤ ExportModel.created_at e1)%Z.

(** ** A concrete installation, for running the views on examples *)

Module Sample.

#[local] Open Scope Z_scope.

Inductive status : Set := Pending | Completed.

#[export] Instance status_eq_dec : EqDecision status.
Proof. solve_decision. Defined.

Definition parse_bool (params : QueryDict) (key : string) (dflt : bool)
  : result bool :=
  match get params key with
  | None => Ok dflt
  | Some v =>
      if bool_decide (v ∈ ["true"; "1"]) then Ok true
      else if bool_decide (v ∈ ["false"; "0"]) then Ok false
      else Raise ValueError
  end.

Definition settings : Settings :=
  {| EXPORT_URL_ROOT := "/export/"; CONVERTER_DOWNLOAD_RESOURCES := true |}.

Definition collab : Collaborators :=
  {| Status := status;
     COMPLETED := Completed;
     Status_default := Pending;
     bool_from_request := parse_bool;
     get_object_with_check_and_log := λ _ queryset pk,
       get_object_or_404 queryset Project.id pk;
     for_user := λ user queryset,
       filter (λ p, Project.organization p = User.active_organization user)
         queryset;
     has_project_permission := λ _ _, true;
     has_export_permission := λ _ _, true;
     ExportDataSerializer := λ t,
       JDict [("id", JInt (Task.id t)); ("data", JStr (Task.data t))];
     ExportSerializer := λ e, JDict [("id", JInt (ExportModel.id e))];
     generate_export_file := λ project tasks export_type _ _,
       Ok ("[]", "application/json",
           "project-" +:+ str (Project.id project) +:+ "." +:+ export_type);
     convert_file := λ e export_type,
       Ok (Some {| FieldFile.name := Some ("export." +:+ export_type);
                   FieldFile.bytes := FieldFile.bytes (ExportModel.file e) |});
     run_file_exporting := λ _ _ _ _ db, Ok db |}.

Definition alice : User.t := {| User.id := 1; User.active_organization := 10 |}.

Definition task (id project : Z) (annotations : list Z) : Task.t :=
  {| Task.id := id; Task.project := project; Task.data := "text";
     Task.annotations := annotations; Task.predictions := [] |}.

Definition export (id project created_at : Z) (st : status)
  : ExportModel.t status :=
  {| ExportModel.id := id; ExportModel.project := project;
     ExportModel.created_by := 1; ExportModel.created_at := created_at;
     ExportModel.status := st;
     ExportModel.file := {| FieldFile.name := Some "snapshot.json";
                            FieldFile.bytes := "[]" |};
     ExportModel.fields := ∅ |}.

Definition db : DB.t status :=
  {| DB.projects := [ {| Project.id := 5; Project.organization := 10 |};
                      {| Project.id := 6; Project.organization := 10 |};
                      {| Project.id := 7; Project.organization := 20 |} ];
     DB.tasks := [ task 1 5 [100; 101]; task 2 5 []; task 3 5 [102];
                   task 4 6 [103] ];
     DB.exports := [ export 1 5 1000 Completed; export 2 5 3000 Pending;
                     export 3 6 2000 Completed; export 4 5 2000 Completed ];
     DB.export_id_seq := 5 |}.

Definition empty_db : DB.t status :=
  {| DB.projects := []; DB.tasks := []; DB.exports := [];
     DB.export_id_seq := 1 |}.

Definition request (query : QueryDict) : Request.t :=
  {| Request.user := alice; Request.GET := query; Request.META := ∅ |}.

Definition proxied (uri : string) : Request.t :=
  {| Request.user := alice; Request.GET := [];
     Request.META := {[ "HTTP_X_ORIGINAL_URI" := uri ]} |}.

Definition listdir : list string :=
  [ "5-at-2021-01-01.json"; "5-at-2021-01-01-info.json"; "6-at-2021.json";
    "5-at-2021-02-01.json"; "5-at-2021.csv"; "55-at-2021.json"; "5.json" ].

Definition create_serializer : Serializer.t status :=
  {| Serializer.validated_data :=
       {[ "title" := JStr "nightly";
          "task_filter_options" := JDict [("annotated", JStr "only")];
          "annotation_filter_options" := JNone;
          "serialization_options" := JDict [("drafts", JBool false)] ]};
     Serializer.instance := None |}.

End Sample.

(** ** The export formats view *)

(** [DataExport.get_export_formats], defined outside this file. *)
Class ExportFormats : Type := {
  get_export_formats : Project.t → json;
}.

Section FormatsView.
Context {collab : Collaborators} {formats : ExportFormats}.

(** *** ExportFormatsListAPI.get *)

Definition ExportFormatsListAPI_get (request : Request.t) (pk : Z)
    (db : DB.t Status) : result HttpResponse :=
  project ← get_object request (organization_projects request db)
              Project.id has_project_permission pk;
  let formats := get_export_formats project in
  mret (Response formats HTTP_200_OK).

End FormatsView.

(** A string without whitespace. *)
Fixpoint no_space (s : string) : bool :=
  match s with
  | EmptyString => true
  | String c s' => negb (isspace c) && no_space s'
  end.

(** ** More of the sample installation *)

Module Sample2.

#[local] Open Scope Z_scope.

Definition formats : ExportFormats :=
  {| get_export_formats := λ _, JList [JStr "JSON"; JStr "CSV"] |}.

(** An installation whose export URL root has a single [/]. *)
Definition flat_settings : Settings :=
  {| EXPORT_URL_ROOT := "export/"; CONVERTER_DOWNLOAD_RESOURCES := true |}.

(** An installation that grants no object permission on exports and
    whose converter has no file to give. *)
Definition locked : Collaborators :=
  {| Status := Sample.status;
     Status_eq_dec := Sample.status_eq_dec;
     COMPLETED := Sample.Completed;
     Status_default := Sample.Pending;
     bool_from_request := Sample.parse_bool;
     get_object_with_check_and_log := λ _ queryset pk,
       get_object_or_404 queryset Project.id pk;
     for_user := λ user queryset,
       filter (λ p, Project.organization p = User.active_organization user)
         queryset;
     has_project_permission := λ _ _, true;
     has_export_permission := λ _ _, false;
     ExportDataSerializer := λ t, JInt (Task.id t);
     ExportSerializer := λ e, JInt (ExportModel.id e);
     generate_export_file := λ _ _ _ _ _, Raise ValueError;
     convert_file := λ _ _, Ok None;
     run_file_exporting := λ _ _ _ _ db, Ok db |}.

(** The sample installation with a converter that has no file to give. *)
Definition unconverted : Collaborators :=
  {| Status := Sample.status;
     Status_eq_dec := Sample.status_eq_dec;
     COMPLETED := Sample.Completed;
     Status_default := Sample.Pending;
     bool_from_request := Sample.parse_bool;
     get_object_with_check_and_log := λ _ queryset pk,
       get_object_or_404 queryset Project.id pk;
     for_user := λ user queryset,
       filter (λ p, Project.organization p = User.active_organization user)
         queryset;
     has_project_permission := λ _ _, true;
     has_export_permission := λ _ _, true;
     ExportDataSerializer := λ t, JInt (Task.id t);
     ExportSerializer := λ e, JInt (ExportModel.id e);
     generate_export_file := λ _ _ _ _ _, Raise ValueError;
     convert_file := λ _ _, Ok None;
     run_file_exporting := λ _ _ _ _ db, Ok db |}.

Definition project5 : Project.t :=
  {| Project.id := 5; Project.organization := 10 |}.

End Sample2.

(** ** Properties *)

(** *** The Python operations on examples *)

Example endswith_json : endswith "12-at-2021.json" ".json" = true.
Proof. reflexivity. Qed.
Example endswith_info : endswith "12-at-2021-info.json" "-info.json" = true.
Proof. reflexivity. Qed.
Example split_dash : split "-" "12-at-2021.json" = ["12"; "at"; "2021.json"].
Proof. reflexivity. Qed.
Example split_none : split "-" "12.json" = ["12.json"].
Proof. reflexivity. Qed.
Example split_slash : split "/" "/export/12-a.json" = [""; "export"; "12-a.json"].
Proof. reflexivity. Qed.
Example replace_export :
  replace "/export/12-a/export/b.json" "/export/" "" = "12-ab.json".
Proof. reflexivity. Qed.
Example replace_overlap : replace "aaa" "aa" "b" = "ba".
Proof. reflexivity. Qed.
Example str_neg : str (-120) = "-120".
Proof. reflexivity. Qed.
Example int_plain : int " 1_000 " = Ok 1000%Z.
Proof. reflexivity. Qed.
Example int_signed : int "-07" = Ok (-7)%Z.
Proof. reflexivity. Qed.
Example int_bad : int "12a" = Raise ValueError ∧ int EmptyString = Raise ValueError
  ∧ int "1__0" = Raise ValueError ∧ int "_1" = Raise ValueError
  ∧ int "1_" = Raise ValueError ∧ int "+ 1" = Raise ValueError.
Proof. repeat split; reflexivity. Qed.
Example sorted_rev : reverse (sorted ["b"; "a"; "c"]) = ["c"; "b"; "a"].
Proof. vm_compute. reflexivity. Qed.

(** *** The error monad *)

Lemma bind_Ok_inv {A B} (m : result A) (f : A → result B) (b : B) :
  m ≫= f = Ok b → ∃ a, m = Ok a ∧ f a = Ok b.
Proof. destruct m as [a|e]; [by exists a | done]. Qed.

Lemma fmap_Ok_inv {A B} (f : A → B) (m : result A) (b : B) :
  f <$> m = Ok b → ∃ a, m = Ok a ∧ b = f a.
Proof. destruct m as [a|e]; [intros [= <-]; by exists a | done]. Qed.

(** Peel the binds of a handler that returned. *)
Ltac unbind H :=
  repeat match type of H with
    | _ ≫= _ = Ok _ =>
        let a := fresh "a" in
        let Ha := fresh "Ha" in
        apply bind_Ok_inv in H as (a & Ha & H); simpl in H
    end;
  unfold mret, result_ret in H.


(** *** Strings *)

Lemma split_head (sep : ascii) (s : string) :
  split sep s !! 0 = Some (before_first sep s).
Proof.
  induction s as [|c s IH]; simpl; [done|].
  destruct (Ascii.eqb c sep); [done|].
  destruct (split sep s) as [|h t]; [done|]. simpl in *. by simplify_eq.
Qed.

Lemma getitem_split_0 (sep : ascii) (s : string) :
  getitem (split sep s) 0 = Ok (before_first sep s).
Proof. unfold getitem. by rewrite split_head. Qed.

Lemma endswith_refl (s : string) : endswith s s = true.
Proof. destruct s; cbn [endswith]; by rewrite String.eqb_refl. Qed.

Lemma endswith_spec (s suffix : string) :
  endswith s suffix = true ↔ ends_with s suffix.
Proof.
  split.
  - induction s as [|c s IH]; cbn [endswith].
    + destruct (String.eqb_spec EmptyString suffix) as [<-|]; [|done].
      intros _. by exists EmptyString.
    + destruct (String.eqb_spec (String c s) suffix) as [<-|].
      * intros _. by exists EmptyString.
      * intros [p ->]%IH. by exists (String c p).
  - intros [p ->]. induction p as [|c p IH].
    + apply endswith_refl.
    + change (String c p +:+ suffix) with (String c (p +:+ suffix)).
      cbn [endswith]. by destruct (String.eqb _ _).
Qed.

Lemma endswith_false_spec (s suffix : string) :
  endswith s suffix = false ↔ ¬ ends_with s suffix.
Proof.
  rewrite <- endswith_spec. by destruct (endswith s suffix).
Qed.

Lemma int_raises_ValueError (s : string) (e : exn) :
  int s = Raise e → e = ValueError.
Proof.
  unfold int. by destruct (match strip s with EmptyString => _ | _ => _ end);
    intros [=].
Qed.

(** *** Querysets *)

Section Queryset.
Context {A : Type} (pk_of : A → Z).

Lemma get_object_or_404_Ok (queryset : list A) (pk : Z) (x : A) :
  get_object_or_404 queryset pk_of pk = Ok x → x ∈ queryset ∧ pk_of x = pk.
Proof.
  unfold get_object_or_404.
  destruct (filter _ queryset) as [|y [|z l]] eqn:E; intros [= <-].
  assert (y ∈ filter (λ x, pk_of x = pk) queryset) as Hy by (rewrite E; left).
  apply list_elem_of_filter in Hy as [? ?]. done.
Qed.

Lemma get_object_or_404_missing (queryset : list A) (pk : Z) :
  (∀ x, x ∈ queryset → pk_of x ≠ pk) →
  get_object_or_404 queryset pk_of pk = Raise Http404.
Proof.
  intros Hno. unfold get_object_or_404.
  destruct (filter _ queryset) as [|y l] eqn:E; [done|].
  assert (y ∈ filter (λ x, pk_of x = pk) queryset) as Hy by (rewrite E; left).
  apply list_elem_of_filter in Hy as [? ?]. by destruct (Hno y).
Qed.

Lemma filter_pk_unique (queryset : list A) (x : A) :
  NoDup (pk_of <$> queryset) → x ∈ queryset →
  filter (λ y, pk_of y = pk_of x) queryset = [x].
Proof.
  induction queryset as [|y l IH]; intros Hnd Hx; [by apply elem_of_nil in Hx|].
  rewrite fmap_cons in Hnd. apply NoDup_cons in Hnd as [Hy Hnd].
  rewrite filter_cons. apply elem_of_cons in Hx as [->|Hx].
  - rewrite decide_True by done. f_equal.
    destruct (filter _ l) as [|z l'] eqn:E; [done|].
    assert (z ∈ filter (λ y0, pk_of y0 = pk_of y) l) as Hz by (rewrite E; left).
    apply list_elem_of_filter in Hz as [Hz1 Hz2].
    destruct Hy. rewrite <- Hz1. by apply list_elem_of_fmap_2.
  - rewrite decide_False; [by apply IH|].
    intros Heq. destruct Hy. rewrite Heq. by apply list_elem_of_fmap_2.
Qed.

Lemma get_object_or_404_found (queryset : list A) (x : A) :
  NoDup (pk_of <$> queryset) → x ∈ queryset →
  get_object_or_404 queryset pk_of (pk_of x) = Ok x.
Proof.
  intros Hnd Hx. unfold get_object_or_404. by rewrite filter_pk_unique.
Qed.

End Queryset.

(** *** Batches *)

Section Batch.
Context {A : Type}.
Implicit Types (l : list A) (n : nat).

Lemma elem_of_concat (x : A) (ls : list (list A)) :
  x ∈ concat ls ↔ ∃ l, x ∈ l ∧ l ∈ ls.
Proof.
  induction ls as [|k ls IH]; simpl.
  - split; [by intros ?%elem_of_nil|]. by intros (? & _ & ?%elem_of_nil).
  - rewrite elem_of_app, IH. split.
    + intros [?|(l & ? & ?)]; [exists k|exists l]; split; try done;
        [left|by right].
    + intros (l & Hx & [->|?]%elem_of_cons); [by left|right; by exists l].
Qed.

Lemma concat_slices l n (k : nat) :
  concat ((λ i, take n (drop (i * n) l)) <$> seq 0 k) = take (k * n) l.
Proof.
  induction k as [|k IH]; [done|].
  rewrite seq_S, fmap_app, concat_app, IH. simpl.
  rewrite app_nil_r, take_take_drop. f_equal. lia.
Qed.

Lemma batch_count_bounds l n :
  0 < n →
  length l ≤ ((length l + n - 1) `div` n) * n
  ∧ ∀ i, i < (length l + n - 1) `div` n → i * n < length l.
Proof.
  intros Hn.
  pose proof (Nat.div_mod_eq (length l + n - 1) n) as Hdiv.
  pose proof (Nat.mod_upper_bound (length l + n - 1) n) as Hmod.
  split; [nia|]. intros i Hi. nia.
Qed.

(** The batches of a list, end to end, are the list. *)
Lemma batch_concat l n : 0 < n → concat (batch l n) = l.
Proof.
  intros Hn. unfold batch. rewrite concat_slices.
  apply take_ge. by apply batch_count_bounds.
Qed.

(** Batch [i] is the slice of [n] elements that starts at [i * n]; it is
    not empty and has at most [n] elements. *)
Lemma batch_lookup l n (i : nat) (b : list A) :
  0 < n → batch l n !! i = Some b →
  b = take n (drop (i * n) l) ∧ 0 < length b ≤ n.
Proof.
  intros Hn. unfold batch. rewrite list_lookup_fmap.
  destruct (seq 0 _ !! i) as [j|] eqn:Hj; [|done].
  apply lookup_seq in Hj as [-> Hi]. simpl. intros [= <-].
  split; [done|]. rewrite length_take, length_drop.
  apply (batch_count_bounds l n Hn) in Hi. lia.
Qed.

Lemma filter_none (P : A → Prop) `{∀ x, Decision (P x)} l :
  (∀ x, x ∈ l → ¬ P x) → filter P l = [].
Proof.
  induction l as [|x l IH]; intros Hl; [done|].
  rewrite filter_cons, decide_False by (apply Hl; left).
  apply IH. intros y Hy. apply Hl. by right.
Qed.

Lemma filter_all (P : A → Prop) `{∀ x, Decision (P x)} l :
  (∀ x, x ∈ l → P x) → filter P l = l.
Proof.
  induction l as [|x l IH]; intros Hl; [done|].
  rewrite filter_cons, decide_True by (apply Hl; left).
  f_equal. apply IH. intros y Hy. apply Hl. by right.
Qed.

(** Selecting by the keys of consecutive chunks gives back the rows,
    chunk after chunk, when the keys are unique. *)
Lemma filter_by_chunks (f : A → Z) (chunks : list (list Z)) :
  ∀ (pre q : list A),
    NoDup (f <$> (pre ++ q)) → concat chunks = f <$> q →
    concat ((λ c, filter (λ x, f x ∈ c) (pre ++ q)) <$> chunks) = q.
Proof.
  induction chunks as [|c cs IH]; intros pre q Hnd Hcs; simpl in *.
  - symmetry in Hcs. by apply fmap_nil_inv in Hcs.
  - symmetry in Hcs.
    apply fmap_app_inv in Hcs as (q1 & q2 & -> & Hq2 & ->).
    assert (filter (λ x, f x ∈ f <$> q1) (pre ++ q1 ++ q2) = q1) as ->.
    { rewrite !fmap_app in Hnd.
      apply NoDup_app in Hnd as (_ & Hpre & Hnd).
      apply NoDup_app in Hnd as (_ & Hq1 & _).
      rewrite !filter_app.
      rewrite (filter_none _ pre), (filter_all _ q1), (filter_none _ q2).
      - by rewrite app_nil_r.
      - intros x Hx Hin. apply (Hq1 (f x)); [done|].
        by apply list_elem_of_fmap_2.
      - intros x Hx. by apply list_elem_of_fmap_2.
      - intros x Hx Hin. apply (Hpre (f x)); [by apply list_elem_of_fmap_2|].
        apply elem_of_app. by left. }
    f_equal. rewrite (assoc_L (++)).
    apply IH; [by rewrite <- (assoc_L (++))|done].
Qed.

End Batch.

Section Properties.
Context {settings : Settings} {collab : Collaborators}.

#[local] Abbreviation Export := (ExportModel.t Status).
#[local] Abbreviation Database := (DB.t Status).

Lemma get_object_Ok {A} (request : Request.t) (queryset : list A)
    (pk_of : A → Z) (allowed : Request.t → A → bool) (pk : Z) (x : A) :
  get_object request queryset pk_of allowed pk = Ok x →
  get_object_or_404 queryset pk_of pk = Ok x ∧ allowed request x = true.
Proof.
  unfold get_object. intros H. unbind H.
  unfold check_object_permissions in *.
  destruct (allowed request a) eqn:E; [|done]. by simplify_eq.
Qed.

(** *** Query parameters *)

Lemma getlist_nil_iff (q : QueryDict) (key : string) :
  getlist q key = [] ↔ key ∉ q.*1.
Proof.
  unfold getlist. induction q as [|[k v] q IH].
  - split; [intros _; apply not_elem_of_nil|done].
  - rewrite filter_cons, fmap_cons, not_elem_of_cons. simpl.
    destruct (decide (k = key)) as [->|Hne]; simpl.
    + split; [done|]. intros [? _]. done.
    + rewrite IH. split; [done|]. by intros [_ ?].
Qed.

Lemma get_None_iff (q : QueryDict) (key : string) :
  get q key = None ↔ key ∉ q.*1.
Proof. unfold get. by rewrite last_None, getlist_nil_iff. Qed.

Lemma contains_true_iff (q : QueryDict) (key : string) :
  contains q key = true ↔ key ∈ q.*1.
Proof. unfold contains. by rewrite bool_decide_eq_true. Qed.

(** What a handler that returned has done, step by step. *)
Lemma ExportAPI_get_Ok (request : Request.t) (pk : Z) (db : Database)
    (response : HttpResponse) :
  ExportAPI_get request pk db = Ok response →
  ∃ project only_finished download_resources query export_stream content_type
    filename,
    get_object request (organization_projects request db) Project.id
      has_project_permission pk = Ok project
    ∧ ExportAPI_only_finished (Request.GET request) = Ok only_finished
    ∧ ExportAPI_download_resources (Request.GET request) = Ok download_resources
    ∧ ExportAPI_query project (getlist (Request.GET request) "ids[]")
        only_finished db = Ok query
    ∧ generate_export_file project
        (ExportDataSerializer <$> ExportAPI_rows query)
        (ExportAPI_export_type (Request.GET request)) download_resources
        (Request.GET request) = Ok (export_stream, content_type, filename)
    ∧ response = ExportAPI_response export_stream content_type filename.
Proof.
  unfold ExportAPI_get. intros H. unbind H.
  destruct a3 as [[export_stream content_type] filename]. simpl in H.
  injection H as <-. by eexists _, _, _, _, _, _, _.
Qed.

(** C8. The export format of a synchronous export is the value of
    [exportType] when the query has that parameter, otherwise the value
    of [export_type], otherwise [JSON]; with both present [exportType]
    wins.  The value of a repeated parameter is its last one, and the
    format is what the handler hands to the file generator. *)
Theorem sync_export_format_precedence (request : Request.t) (pk : Z)
    (db : Database) :
  let GET := Request.GET request in
  ExportAPI_export_type GET
  = match get GET "exportType", get GET "export_type" with
    | Some v, _ => v
    | None, Some v => v
    | None, None => "JSON"
    end
  ∧ (get GET "exportType" = None ↔ "exportType" ∉ GET.*1)
  ∧ (get GET "export_type" = None ↔ "export_type" ∉ GET.*1)
  ∧ ∀ response, ExportAPI_get request pk db = Ok response →
      ∃ project tasks download_resources generated,
        generate_export_file project tasks (ExportAPI_export_type GET)
          download_resources GET = Ok generated.
Proof.
  intros GET. repeat split; try apply get_None_iff.
  - unfold ExportAPI_export_type, get_default.
    destruct (contains GET "exportType") eqn:E.
    + apply contains_true_iff in E.
      destruct (get GET "exportType") as [v|] eqn:Ev; [done|].
      by apply get_None_iff in Ev.
    + assert (get GET "exportType" = None) as ->.
      { apply get_None_iff. intros ?%contains_true_iff. congruence. }
      by destruct (get GET "export_type").
  - intros response H.
    apply ExportAPI_get_Ok in H as (project & ? & dr & query & s & ct & fn & H).
    destruct H as (_ & _ & _ & _ & Hgen & _). by eexists _, _, _, _.
Qed.


(** C7. A synchronous export that succeeds answers with the content
    type the file generator produced, a [Content-Disposition] header
    [attachment; filename="<filename>"] for the generated file name, and
    a [filename] header with that same name; the body is the generated
    stream. *)
Theorem sync_export_response_headers (request : Request.t) (pk : Z)
    (db : Database) (response : HttpResponse) :
  ExportAPI_get request pk db = Ok response →
  ∃ project tasks export_type download_resources export_stream content_type
    filename,
    generate_export_file project tasks export_type download_resources
      (Request.GET request) = Ok (export_stream, content_type, filename)
    ∧ content response = FileStream export_stream
    ∧ status_code response = 200%Z
    ∧ headers response !! "Content-Type" = Some content_type
    ∧ headers response !! "Content-Disposition"
      = Some ("attachment; filename=" +:+ dquote +:+ filename +:+ dquote)
    ∧ headers response !! "filename" = Some filename.
Proof.
  intros H.
  apply ExportAPI_get_Ok in H as (project & ? & dr & query & s & ct & fn & H).
  destruct H as (_ & _ & _ & _ & Hgen & ->).
  eexists _, _, _, _, s, ct, fn. split; [exact Hgen|].
  unfold ExportAPI_response, setitem, HttpResponse_new. simpl.
  split_and!; [done|done|..].
  - rewrite !lookup_insert_ne by done. apply lookup_singleton_eq.
  - rewrite lookup_insert_ne by done. apply lookup_insert_eq.
  - apply lookup_insert_eq.
Qed.

(** *** The synchronous export *)

Lemma elem_of_distinct_annotated (query : list Task.t) (t : Task.t) :
  t ∈ distinct (filter_isnull_false Task.annotations query)
  ↔ t ∈ query ∧ Task.annotations t ≠ [].
Proof.
  unfold distinct, filter_isnull_false.
  rewrite elem_of_remove_dups, list_elem_of_bind. split.
  - intros (x & Ht & Hx). apply list_elem_of_fmap in Ht as (a & -> & Ha).
    split; [done|]. intros Hnil. rewrite Hnil in Ha. by apply elem_of_nil in Ha.
  - intros [Ht Hann]. exists t. split; [|done].
    destruct (Task.annotations t) as [|a l]; [done|].
    apply list_elem_of_fmap. exists a. split; [done|left].
Qed.

Lemma pk_injective {B} (f : B → Z) (l : list B) (x y : B) :
  NoDup (f <$> l) → x ∈ l → y ∈ l → f x = f y → x = y.
Proof.
  intros Hnd Hx Hy Heq.
  pose proof (filter_pk_unique f l x Hnd Hx) as Hone.
  assert (y ∈ filter (λ z, f z = f x) l) as Hmem
    by (by apply list_elem_of_filter).
  rewrite Hone in Hmem. by apply list_elem_of_singleton in Hmem.
Qed.

(** What [query] holds, for parameters that parse. *)
Lemma ExportAPI_query_Ok (project : Project.t) (tasks_ids : list string)
    (ids : list Z) (only_finished : bool) (db : Database) :
  mapM int tasks_ids = Ok ids →
  ∃ query,
    ExportAPI_query project tasks_ids only_finished db = Ok query
    ∧ (∀ t, t ∈ query ↔
            t ∈ DB.tasks db ∧ Task.project t = Project.id project
            ∧ (tasks_ids ≠ [] → Task.id t ∈ ids)
            ∧ (only_finished = true → Task.annotations t ≠ []))
    ∧ (NoDup (Task.id <$> DB.tasks db) → NoDup (Task.id <$> query)).
Proof.
  intros Hids. unfold ExportAPI_query, filter_id_in. rewrite Hids.
  set (tasks := filter (λ t, Task.project t = Project.id project) (DB.tasks db)).
  set (chosen := if bool_decide (tasks_ids ≠ [])
                 then filter (λ t, Task.id t ∈ ids) tasks else tasks).
  assert (∀ t, t ∈ chosen ↔
               t ∈ DB.tasks db ∧ Task.project t = Project.id project
               ∧ (tasks_ids ≠ [] → Task.id t ∈ ids)) as Hchosen.
  { intros t. subst chosen tasks. case_bool_decide as Hne.
    - rewrite !list_elem_of_filter. tauto.
    - rewrite list_elem_of_filter. tauto. }
  exists (if only_finished
          then distinct (filter_isnull_false Task.annotations chosen)
          else chosen).
  split_and!.
  - subst chosen. by case_bool_decide.
  - intros t. destruct only_finished.
    + rewrite elem_of_distinct_annotated, Hchosen. split.
      * intros [(? & ? & ?) ?]. done.
      * intros (? & ? & ? & Hann). split; [done|by apply Hann].
    + rewrite Hchosen. split.
      * intros (? & ? & ?). done.
      * intros (? & ? & ? & _). done.
  - intros Hnd. apply NoDup_fmap_2_strong.
    + intros x y Hx Hy. apply (pk_injective Task.id (DB.tasks db)); [done|..].
      * destruct only_finished;
          [apply elem_of_distinct_annotated in Hx as [Hx _]|];
          by apply Hchosen in Hx as [? _].
      * destruct only_finished;
          [apply elem_of_distinct_annotated in Hy as [Hy _]|];
          by apply Hchosen in Hy as [? _].
    + destruct only_finished; [apply NoDup_remove_dups|].
      subst chosen tasks. apply NoDup_fmap_1 in Hnd.
      case_bool_decide; repeat apply NoDup_filter; done.
Qed.

Lemma ExportAPI_rows_elem_of (query : list Task.t) (t : Task.t) :
  t ∈ ExportAPI_rows query ↔ t ∈ query.
Proof.
  unfold ExportAPI_rows, ExportAPI_batches. rewrite elem_of_concat. split.
  - intros (l & Ht & Hl). apply list_elem_of_fmap in Hl as (b & -> & _).
    by apply list_elem_of_filter in Ht as [_ ?].
  - intros Ht.
    assert (Task.id t ∈ concat (batch (Task.id <$> query) 1000)) as Hid.
    { rewrite batch_concat by lia. by apply list_elem_of_fmap_2. }
    apply elem_of_concat in Hid as (b & Hid & Hb).
    exists (filter (λ t, Task.id t ∈ b) query). split.
    + by apply list_elem_of_filter.
    + apply list_elem_of_fmap. by exists b.
Qed.

Lemma ExportAPI_rows_unique (query : list Task.t) :
  NoDup (Task.id <$> query) → ExportAPI_rows query = query.
Proof.
  intros Hnd. unfold ExportAPI_rows, ExportAPI_batches.
  apply (filter_by_chunks Task.id _ [] query); [done|].
  apply batch_concat. lia.
Qed.


(** *** The export download *)

(** C1. On the export-download endpoint, when the export the request
    identifies is not [COMPLETED] the handler answers 404 with the text
    [Export is not completed] and streams no file; whenever it does
    stream a file, the export is [COMPLETED]. *)
Theorem export_download_requires_completed (request : Request.t)
    (pk export_pk : Z) (db : Database) (queryset : list Export)
    (instance : Export) :
  ExportDownloadAPI_get_queryset request pk db = Ok queryset →
  get_object request queryset ExportModel.id has_export_permission export_pk
  = Ok instance →
  (ExportModel.status instance ≠ COMPLETED →
     ExportDownloadAPI_get request pk export_pk db
     = Ok (HttpResponse_new (Text "Export is not completed")
             default_content_type 404))
  ∧ (∀ response bytes,
       ExportDownloadAPI_get request pk export_pk db = Ok response →
       content response = FileStream bytes →
       ExportModel.status instance = COMPLETED).
Proof.
  intros Hqs Hobj. unfold ExportDownloadAPI_get. rewrite Hqs. simpl.
  rewrite Hobj. simpl. split.
  - intros Hst. by rewrite bool_decide_eq_true_2.
  - intros response bytes. case_bool_decide as Hst.
    + intros [= <-]. done.
    + intros _ _. by destruct (decide (ExportModel.status instance = COMPLETED)).
Qed.

(** *** The legacy export files *)

Lemma append_inj_l (p a b : string) : p +:+ a = p +:+ b → a = b.
Proof. induction p as [|c p IH]; simpl; [done|]. intros [= ?]. by apply IH. Qed.

Lemma occurrences_app (c : ascii) (a b : string) :
  occurrences c (a +:+ b) = occurrences c a + occurrences c b.
Proof. induction a as [|c' a IH]; simpl; [done|]. rewrite IH. lia. Qed.

Lemma split_length (sep : ascii) (s : string) :
  length (split sep s) = S (occurrences sep s).
Proof.
  induction s as [|c s IH]; simpl; [done|].
  destruct (Ascii.eqb c sep); simpl; [by rewrite IH|].
  destruct (split sep s); simpl in *; lia.
Qed.

Lemma ProjectExportFiles_item_Ok (p : string) (j : json) :
  ProjectExportFiles_item p = Ok j → ∃ name, j = export_file_item (name, p).
Proof.
  unfold ProjectExportFiles_item. intros H. unbind H.
  injection H as <-. by exists a0.
Qed.

Lemma ProjectExportFiles_item_total (p : string) :
  2 ≤ occurrences "/" p → ∃ j, ProjectExportFiles_item p = Ok j.
Proof.
  intros Hp. unfold ProjectExportFiles_item, getitem.
  destruct (split "/" p !! 2) as [segment|] eqn:Hseg.
  - simpl. rewrite split_head. simpl. by eexists.
  - apply lookup_ge_None in Hseg. rewrite split_length in Hseg. lia.
Qed.

Lemma mapM_items_Ok (paths : list string) (js : list json) :
  mapM ProjectExportFiles_item paths = Ok js →
  ∃ items, js = export_file_item <$> items ∧ items.*2 = paths.
Proof.
  revert js. induction paths as [|p paths IH]; intros js; simpl.
  - intros [= <-]. by exists [].
  - intros H. unbind H. injection H as <-.
    apply ProjectExportFiles_item_Ok in Ha as [name ->].
    destruct (IH _ Ha0) as (items & -> & <-).
    by exists ((name, p) :: items).
Qed.

Lemma mapM_items_total (paths : list string) :
  Forall (λ p, 2 ≤ occurrences "/" p) paths →
  ∃ js, mapM ProjectExportFiles_item paths = Ok js.
Proof.
  induction 1 as [|p paths Hp _ [js IH]]; simpl; [by eexists|].
  destruct (ProjectExportFiles_item_total p Hp) as [j ->]. simpl.
  rewrite IH. simpl. by eexists.
Qed.

Lemma ProjectExportFiles_paths_Ok (pk : Z) (listdir : list string) :
  ProjectExportFiles_paths pk listdir
  = Ok ((λ name, EXPORT_URL_ROOT +:+ name)
          <$> filter (λ name, endswith name ".json" = true
                              ∧ endswith name "-info.json" = false
                              ∧ before_first "-" name = str pk) listdir).
Proof.
  induction listdir as [|name rest IH]; [done|].
  cbn [ProjectExportFiles_paths]. rewrite filter_cons, IH, getitem_split_0.
  destruct (decide _) as [(Hj & Hi & Hp)|Hno].
  - rewrite Hj, Hi. cbn. by rewrite bool_decide_eq_true_2.
  - destruct (endswith name ".json") eqn:Hj; [|done].
    destruct (endswith name "-info.json") eqn:Hi; [done|]. cbn.
    rewrite bool_decide_eq_false_2; [done|]. intros Hp. by apply Hno.
Qed.

(** C4. The legacy listing for project [pk] answers with one item per
    directory entry that ends with [.json], does not end with
    [-info.json] and whose text before the first [-] is the decimal
    string of [pk], and with no other item; the [url] of an item is the
    export URL root followed by the entry's name.  With the project
    lookups passed and an export URL root that has two [/], the handler
    does answer. *)
Theorem legacy_export_files_listing (request : Request.t) (pk : Z)
    (listdir : list string) (db : Database) (found project : Project.t) :
  get_object request (organization_projects request db) Project.id
    has_project_permission pk = Ok found →
  get_object_with_check_and_log request (DB.projects db) pk = Ok project →
  has_project_permission request project = true →
  (2 ≤ occurrences "/" EXPORT_URL_ROOT →
   ∃ response, ProjectExportFiles_get request pk listdir db = Ok response)
  ∧ (∀ response,
       ProjectExportFiles_get request pk listdir db = Ok response →
       ∃ items : list (string * string),
         response
         = Response (JDict [("export_files",
                             JList (export_file_item <$> items))]) HTTP_200_OK
         ∧ (∀ name, EXPORT_URL_ROOT +:+ name ∈ items.*2 ↔
                    name ∈ listdir ∧ ends_with name ".json"
                    ∧ ¬ ends_with name "-info.json"
                    ∧ before_first "-" name = str pk)
         ∧ (∀ url, url ∈ items.*2 →
                   ∃ name, name ∈ listdir ∧ url = EXPORT_URL_ROOT +:+ name)).
Proof.
  intros Hfound Hproject Hallowed.
  unfold ProjectExportFiles_get.
  rewrite Hfound. cbn [mbind result_bind].
  rewrite Hproject. cbn [mbind result_bind].
  rewrite Hallowed. cbn [check_object_permissions mbind result_bind].
  rewrite ProjectExportFiles_paths_Ok. cbn [mbind result_bind].
  set (included := filter _ listdir).
  set (paths := (λ name, EXPORT_URL_ROOT +:+ name) <$> included).
  assert (∀ url, url ∈ reverse (sorted paths) ↔
                 ∃ name, url = EXPORT_URL_ROOT +:+ name ∧ name ∈ included)
    as Hurls.
  { intros url. unfold sorted.
    rewrite elem_of_reverse, merge_sort_Permutation. subst paths.
    by rewrite list_elem_of_fmap. }
  split.
  - intros Hroot.
    destruct (mapM_items_total (reverse (sorted paths))) as [js ->];
      [|by eexists].
    apply Forall_forall. intros url (name & -> & _)%Hurls.
    rewrite occurrences_app. lia.
  - intros response H. unbind H. injection H as <-.
    apply mapM_items_Ok in Ha as (items & -> & Hitems).
    exists items. rewrite Hitems. split_and!; [done|..].
    + intros name. rewrite Hurls. subst included. split.
      * intros (name' & ->%append_inj_l & Hin).
        apply list_elem_of_filter in Hin as [(Hj & Hi & Hp) Hin].
        by rewrite <- endswith_spec, <- endswith_false_spec.
      * intros (Hin & Hj%endswith_spec & Hi%endswith_false_spec & Hp).
        exists name. split; [done|]. by apply list_elem_of_filter.
    + intros url (name & -> & Hin)%Hurls. exists name. split; [|done].
      subst included. by apply list_elem_of_filter in Hin as [_ ?].
Qed.

(** *** The auth check *)


(** *** Export jobs *)

Lemma _get_project_Ok (request : Request.t) (pk : Z) (db : Database)
    (project : Project.t) :
  _get_project request pk db = Ok project → Project.id project = pk.
Proof. unfold _get_project. by intros [_ ?]%get_object_or_404_Ok. Qed.

(** C5. A create request whose validated data has the three option
    entries, for a project the user can reach, saves a new [Export] row
    with [project] the project of the URL and [created_by] the requesting
    user, and then calls [run_file_exporting] on that row with exactly the
    three options taken out of the validated data. *)
Theorem export_create_saves_and_starts_job (request : Request.t) (pk now : Z)
    (serializer : Serializer.t Status) (db : Database) (project : Project.t)
    (task_filter_options annotation_filter_options serialization_options : json) :
  Serializer.validated_data serializer !! "task_filter_options"
  = Some task_filter_options →
  Serializer.validated_data serializer !! "annotation_filter_options"
  = Some annotation_filter_options →
  Serializer.validated_data serializer !! "serialization_options"
  = Some serialization_options →
  _get_project request pk db = Ok project →
  ∃ (instance : Export) (saved : Database) (serializer' : Serializer.t Status),
    DB.exports saved = DB.exports db ++ [instance]
    ∧ DB.projects saved = DB.projects db
    ∧ DB.tasks saved = DB.tasks db
    ∧ ExportModel.project instance = pk
    ∧ ExportModel.project instance = Project.id project
    ∧ ExportModel.created_by instance = User.id (Request.user request)
    ∧ Serializer.instance serializer' = Some instance
    ∧ ExportListAPI_perform_create request pk now serializer db
      = (db' ← run_file_exporting instance task_filter_options
                 annotation_filter_options serialization_options saved;
         mret (serializer', db')).
Proof.
  intros Ht Ha Hs Hproject.
  pose proof (_get_project_Ok _ _ _ _ Hproject) as Hpk.
  unfold ExportListAPI_perform_create, pop. rewrite Ht. simpl.
  rewrite lookup_delete_ne by done. rewrite Ha. simpl.
  rewrite !lookup_delete_ne by done. rewrite Hs. simpl.
  rewrite Hproject. simpl.
  eexists _, _, _. split_and!; [..|reflexivity]; done.
Qed.

(** [filter] keeps a list sorted. *)
Lemma StronglySorted_filter {A} (R : relation A) (P : A → Prop)
    `{∀ x, Decision (P x)} (l : list A) :
  StronglySorted R l → StronglySorted R (filter P l).
Proof.
  induction 1 as [|x l Hl IH Hx]; [constructor|].
  rewrite filter_cons. case_decide; [|done].
  constructor; [done|].
  apply Forall_forall. intros y [_ Hy]%list_elem_of_filter.
  by eapply Forall_forall in Hx.
Qed.

#[local] Instance descending_total {A} (field : A → Z) :
  Total (descending field).
Proof. intros x y. unfold descending. lia. Qed.

#[local] Instance descending_trans {A} (field : A → Z) :
  Transitive (descending field).
Proof. intros x y z. unfold descending. lia. Qed.

(** C9. The list of a project's export jobs comes newest first: the
    rows are in descending order of [created_at], and they are the
    project's rows, each once. *)
Theorem export_jobs_listed_newest_first (request : Request.t) (pk : Z)
    (db : Database) (project : Project.t) :
  _get_project request pk db = Ok project →
  ∃ queryset : list Export,
    ExportListAPI_get request pk db
    = Ok (Response (JList (ExportSerializer <$> queryset)) HTTP_200_OK)
    ∧ StronglySorted newest_first queryset
    ∧ queryset ≡ₚ filter (λ e, ExportModel.project e = pk) (DB.exports db).
Proof.
  intros Hproject.
  pose proof (_get_project_Ok _ _ _ _ Hproject) as Hpk.
  unfold ExportListAPI_get, ExportListAPI_get_queryset. rewrite Hproject.
  simpl. eexists. split; [reflexivity|]. rewrite Hpk. split.
  - apply StronglySorted_filter.
    apply (StronglySorted_merge_sort (descending ExportModel.created_at)).
  - unfold ExportListAPI_queryset, order_by_desc.
    by rewrite merge_sort_Permutation.
Qed.

(** C6. List, retrieve, delete and download only ever reach the export
    jobs of the project named in the URL.  The listed rows are exactly
    the project's rows; a row that is retrieved, deleted or downloaded is
    a row of the project; and when the only rows with the requested key
    belong to other projects, the three detail requests fail with
    [Http404] and nothing is deleted. *)
Theorem export_jobs_scoped_to_project (request : Request.t) (pk export_pk : Z)
    (db : Database) (project : Project.t) :
  _get_project request pk db = Ok project →
  (∃ queryset,
     ExportListAPI_get_queryset request pk db = Ok queryset
     ∧ ∀ e, e ∈ queryset ↔ e ∈ DB.exports db ∧ ExportModel.project e = pk)
  ∧ (∀ response,
       ExportDetailAPI_get request pk export_pk db = Ok response →
       ∃ e, e ∈ DB.exports db ∧ ExportModel.id e = export_pk
            ∧ ExportModel.project e = pk
            ∧ response = Response (ExportSerializer e) HTTP_200_OK)
  ∧ (∀ response db',
       ExportDetailAPI_delete request pk export_pk db = Ok (response, db') →
       ∃ e, e ∈ DB.exports db ∧ ExportModel.id e = export_pk
            ∧ ExportModel.project e = pk
            ∧ db' = Export_delete e db
            ∧ (NoDup (ExportModel.id <$> DB.exports db) →
               ∀ e', e' ∈ DB.exports db → e' ∉ DB.exports db' → e' = e))
  ∧ (∀ response,
       ExportDownloadAPI_get request pk export_pk db = Ok response →
       ∃ e, e ∈ DB.exports db ∧ ExportModel.id e = export_pk
            ∧ ExportModel.project e = pk)
  ∧ ((∀ e, e ∈ DB.exports db → ExportModel.id e = export_pk →
           ExportModel.project e ≠ pk) →
     ExportDetailAPI_get request pk export_pk db = Raise Http404
     ∧ ExportDetailAPI_delete request pk export_pk db = Raise Http404
     ∧ ExportDownloadAPI_get request pk export_pk db = Raise Http404).
Proof.
  intros Hproject.
  pose proof (_get_project_Ok _ _ _ _ Hproject) as Hpk.
  assert (∀ e : Export,
    get_object request
      (filter (λ e, ExportModel.project e = Project.id project) (DB.exports db))
      ExportModel.id has_export_permission export_pk = Ok e →
    e ∈ DB.exports db ∧ ExportModel.id e = export_pk
    ∧ ExportModel.project e = pk) as Hscoped.
  { intros e [He _]%get_object_Ok.
    apply get_object_or_404_Ok in He as [[Hp He]%list_elem_of_filter Hid].
    by rewrite <- Hpk. }
  split_and!.
  - unfold ExportListAPI_get_queryset. rewrite Hproject. simpl.
    eexists. split; [reflexivity|]. intros e.
    rewrite list_elem_of_filter, Hpk.
    unfold ExportListAPI_queryset, order_by_desc.
    rewrite merge_sort_Permutation. split; intros [? ?]; done.
  - intros response. unfold ExportDetailAPI_get, ExportDetailAPI_get_queryset.
    rewrite Hproject. simpl. intros H. unbind H.
    destruct (Hscoped _ Ha) as (? & ? & ?). exists a. by simplify_eq.
  - intros response db'.
    unfold ExportDetailAPI_delete, ExportDetailAPI_get_queryset.
    rewrite Hproject. simpl. intros H. unbind H.
    destruct (Hscoped _ Ha) as (Hin & Hid & Hp). exists a. simplify_eq.
    split_and!; [done..|].
    intros Hnd e' He' Hgone. simpl in Hgone.
    rewrite list_elem_of_filter in Hgone.
    destruct (decide (ExportModel.id e' = ExportModel.id a)) as [Heq|Hne];
      [|destruct Hgone; done].
    pose proof (filter_pk_unique ExportModel.id _ _ Hnd Hin) as Hone.
    assert (e' ∈ filter (λ y, ExportModel.id y = ExportModel.id a)
                   (DB.exports db)) as Hmem
      by (by apply list_elem_of_filter).
    rewrite Hone in Hmem. by apply list_elem_of_singleton in Hmem.
  - intros response. unfold ExportDownloadAPI_get, ExportDownloadAPI_get_queryset.
    rewrite Hproject. simpl. intros H.
    apply bind_Ok_inv in H as (e & He & _).
    destruct (Hscoped _ He) as (? & ? & ?). by exists e.
  - intros Hother.
    assert (get_object request
      (filter (λ e, ExportModel.project e = Project.id project) (DB.exports db))
      ExportModel.id has_export_permission export_pk = Raise Http404) as Hmiss.
    { unfold get_object. rewrite get_object_or_404_missing; [done|].
      intros e [Hp He]%list_elem_of_filter Hid.
      apply (Hother e He Hid). by rewrite <- Hpk. }
    unfold ExportDetailAPI_get, ExportDetailAPI_delete, ExportDownloadAPI_get,
      ExportDetailAPI_get_queryset, ExportDownloadAPI_get_queryset.
    rewrite Hproject. simpl. by rewrite Hmiss.
Qed.

End Properties.


(** ** Further properties *)

(** *** Decimal strings *)

Lemma parse_digits_uint_acc (d : Decimal.uint) (acc : positive) :
  parse_digits (Z.pos acc) true (NilEmpty.string_of_uint d)
  = Some (Z.pos (Pos.of_uint_acc d acc)).
Proof.
  revert acc. induction d; intros acc; simpl; [done|..];
    rewrite <- IHd; f_equal; lia.
Qed.

Lemma parse_digits_uint (d : Decimal.uint) (after_digit : bool) :
  d ≠ Decimal.Nil →
  parse_digits 0 after_digit (NilEmpty.string_of_uint d)
  = Some (Z.of_N (Pos.of_uint d)).
Proof.
  revert after_digit. induction d; intros after_digit Hd; [done|..]; simpl;
    try (by rewrite <- parse_digits_uint_acc).
  destruct d; [done|..]; by apply IHd.
Qed.

Lemma string_of_uint_no_space (d : Decimal.uint) :
  no_space (NilEmpty.string_of_uint d) = true.
Proof. induction d; simpl; done. Qed.

Lemma rev_app_no_space (s t : string) :
  no_space s = true → no_space t = true →
  no_space (String.rev_app s t) = true.
Proof.
  revert t. induction s as [|c s IH]; intros t Hs Ht; simpl in *; [done|].
  apply andb_true_iff in Hs as [Hc Hs]. apply IH; [done|].
  simpl. by rewrite Hc.
Qed.

Lemma rev_app_rev_app (s t u : string) :
  String.rev_app (String.rev_app s t) u = String.rev_app t (s +:+ u).
Proof.
  revert t u. induction s as [|c s IH]; intros t u; [done|].
  cbn [String.rev_app]. rewrite IH. reflexivity.
Qed.

Lemma append_empty_r (s : string) : s +:+ EmptyString = s.
Proof.
  induction s as [|c s IH]; [done|].
  change (String c s +:+ EmptyString) with (String c (s +:+ EmptyString)).
  by rewrite IH.
Qed.

Lemma lstrip_no_space (s : string) : no_space s = true → lstrip s = s.
Proof.
  destruct s as [|c s]; simpl; [done|].
  intros [Hc _]%andb_true_iff. by apply negb_true_iff in Hc as ->.
Qed.

(** Stripping a string without whitespace changes nothing. *)
Lemma strip_no_space (s : string) : no_space s = true → strip s = s.
Proof.
  intros Hs. unfold strip. rewrite (lstrip_no_space s Hs).
  rewrite lstrip_no_space by (by apply rev_app_no_space).
  unfold String.rev. rewrite rev_app_rev_app. simpl. apply append_empty_r.
Qed.

Lemma int_digits (d : Decimal.uint) :
  d ≠ Decimal.Nil →
  int (NilEmpty.string_of_uint d) = Ok (Z.of_N (Pos.of_uint d)).
Proof.
  intros Hd. unfold int. rewrite strip_no_space by apply string_of_uint_no_space.
  pose proof (parse_digits_uint d false Hd) as Hp.
  destruct d; [done|..]; cbn [NilEmpty.string_of_uint] in Hp |- *;
    lazy beta iota zeta; by rewrite Hp.
Qed.

Lemma int_minus_digits (d : Decimal.uint) :
  d ≠ Decimal.Nil →
  int (String "-" (NilEmpty.string_of_uint d)) = Ok (- Z.of_N (Pos.of_uint d))%Z.
Proof.
  intros Hd. unfold int.
  rewrite strip_no_space by apply (string_of_uint_no_space d).
  lazy beta iota zeta. by rewrite (parse_digits_uint d false Hd).
Qed.

(** [int] undoes [str]. *)
Lemma int_str (n : Z) : int (str n) = Ok n.
Proof.
  unfold str. destruct n as [|p|p]; [done|..]; simpl;
    pose proof (Unsigned.to_uint_nonnil p) as Hnil;
    pose proof (Unsigned.of_to p) as Hof; unfold NilZero.string_of_uint.
  - destruct (Pos.to_uint p) eqn:E; [done|..];
      rewrite int_digits by done; by rewrite Hof.
  - destruct (Pos.to_uint p) eqn:E; [done|..];
      rewrite int_minus_digits by done; by rewrite Hof.
Qed.

(** *** Replacing and splitting *)

Lemma prefix_other (c c' : ascii) (old s : string) :
  c' ≠ c → String.prefix (String c old) (String c' s) = false.
Proof. intros Hc. simpl. by destruct (ascii_dec c c'). Qed.

Lemma prefix_append (old s : string) : String.prefix old (old +:+ s) = true.
Proof.
  induction old as [|c old IH]; [by destruct s|].
  simpl. by destruct (ascii_dec c c).
Qed.

Lemma replace_go_skip (old new t s : string) :
  replace_go old new (String.length t) (t +:+ s) = replace_go old new 0 s.
Proof. induction t as [|c t IH]; [done|]. exact IH. Qed.

(** A leading occurrence is replaced, and the replacement goes on
    behind it. *)
Lemma replace_leading (c : ascii) (old new s : string) :
  replace (String c old +:+ s) (String c old) new
  = new +:+ replace s (String c old) new.
Proof.
  unfold replace.
  change (String c old +:+ s) with (String c (old +:+ s)).
  cbn [replace_go].
  change (String c (old +:+ s)) with (String c old +:+ s).
  rewrite prefix_append.
  replace (String.length (String c old) - 1) with (String.length old)
    by (cbn [String.length]; lia).
  by rewrite replace_go_skip.
Qed.

(** A string without the first character of [old] has nothing replaced. *)
Lemma replace_absent (c : ascii) (old new s : string) :
  occurrences c s = 0 → replace s (String c old) new = s.
Proof.
  unfold replace. induction s as [|c' s IH]; [done|].
  cbn [occurrences replace_go]. destruct (Ascii.eqb_spec c' c) as [->|Hc]; [done|].
  intros Hs. rewrite prefix_other by done. f_equal. by apply IH.
Qed.

Lemma split_absent (sep : ascii) (s : string) :
  occurrences sep s = 0 → split sep s = [s].
Proof.
  induction s as [|c s IH]; [done|]. cbn [occurrences split].
  destruct (Ascii.eqb c sep); [done|]. intros Hs. by rewrite IH.
Qed.

Lemma before_first_absent (sep : ascii) (s : string) :
  occurrences sep s = 0 → before_first sep s = s.
Proof.
  induction s as [|c s IH]; [done|]. cbn [occurrences before_first].
  destruct (Ascii.eqb c sep); [done|]. intros Hs. by rewrite IH.
Qed.

(** Appending text without the separator extends the last field. *)
Lemma split_append (sep : ascii) (s t : string) :
  occurrences sep t = 0 →
  ∀ l x, split sep s = l ++ [x] → split sep (s +:+ t) = l ++ [x +:+ t].
Proof.
  intros Ht. induction s as [|c s IH]; intros l x Hs.
  - destruct l as [|? [|]]; simplify_eq/=. by rewrite split_absent.
  - change (String c s +:+ t) with (String c (s +:+ t)).
    pose proof (split_length sep s) as Hlen.
    cbn [split] in Hs |- *. destruct (Ascii.eqb c sep).
    + destruct l as [|y l]; simpl in Hs; injection Hs as <- Hs.
      * by rewrite Hs in Hlen.
      * by rewrite (IH l x).
    + destruct (split sep s) as [|h tl] eqn:Hsplit; [done|].
      destruct l as [|y l]; simpl in Hs; injection Hs as <- Hs.
      * subst tl. by rewrite (IH [] h).
      * subst tl. by rewrite (IH (h :: l) x).
Qed.

(** *** The legacy export files, continued *)

Section MoreProperties.
Context {settings : Settings} {collab : Collaborators}.

#[local] Abbreviation Export := (ExportModel.t Status).
#[local] Abbreviation Database := (DB.t Status).

#[local] Instance export_file_item_inj : Inj (=) (=) export_file_item.
Proof. intros [n u] [n' u'] [= -> ->]. done. Qed.

Lemma Response_inj (d d' : json) (status : Z) :
  Response d status = Response d' status → d = d'.
Proof. by intros [= ->]. Qed.

Lemma mapM_items_Forall (paths : list string) (js : list json) :
  mapM ProjectExportFiles_item paths = Ok js →
  ∃ items,
    js = export_file_item <$> items ∧ items.*2 = paths
    ∧ Forall (λ i, ProjectExportFiles_item i.2 = Ok (export_file_item i)) items.
Proof.
  revert js. induction paths as [|p paths IH]; intros js; simpl.
  - intros [= <-]. by exists [].
  - intros H. unbind H. injection H as <-.
    destruct (ProjectExportFiles_item_Ok _ _ Ha) as [name ->].
    destruct (IH _ Ha0) as (items & -> & <- & Hall).
    exists ((name, p) :: items). split_and!; [done|done|].
    constructor; done.
Qed.

(** What a listing that answered has done. *)
Lemma ProjectExportFiles_get_Ok (request : Request.t) (pk : Z)
    (listdir : list string) (db : Database) (response : HttpResponse) :
  ProjectExportFiles_get request pk listdir db = Ok response →
  ∃ found items,
    get_object request (organization_projects request db) Project.id
      has_project_permission pk = Ok found
    ∧ response
      = Response (JDict [("export_files", JList (export_file_item <$> items))])
          HTTP_200_OK
    ∧ items.*2
      = reverse (sorted ((λ name, EXPORT_URL_ROOT +:+ name)
          <$> filter (λ name, endswith name ".json" = true
                              ∧ endswith name "-info.json" = false
                              ∧ before_first "-" name = str pk) listdir))
    ∧ Forall (λ i, ProjectExportFiles_item i.2 = Ok (export_file_item i)) items.
Proof.
  unfold ProjectExportFiles_get. intros H.
  apply bind_Ok_inv in H as (found & Hfound & H).
  apply bind_Ok_inv in H as (project & _ & H).
  apply bind_Ok_inv in H as (? & _ & H).
  rewrite ProjectExportFiles_paths_Ok in H. cbn [mbind result_bind] in H.
  apply bind_Ok_inv in H as (js & Hjs & H). injection H as <-.
  apply mapM_items_Forall in Hjs as (items & -> & Hurls & Hall).
  by exists found, items.
Qed.

Lemma elem_of_listed_urls (pk : Z) (listdir : list string) (url : string) :
  url ∈ reverse (sorted ((λ name, EXPORT_URL_ROOT +:+ name)
          <$> filter (λ name, endswith name ".json" = true
                              ∧ endswith name "-info.json" = false
                              ∧ before_first "-" name = str pk) listdir))
  → ∃ name, name ∈ listdir ∧ url = EXPORT_URL_ROOT +:+ name
            ∧ endswith name ".json" = true
            ∧ endswith name "-info.json" = false
            ∧ before_first "-" name = str pk.
Proof.
  unfold sorted. rewrite elem_of_reverse, merge_sort_Permutation.
  intros (name & -> & [? ?]%list_elem_of_filter)%list_elem_of_fmap.
  exists name. tauto.
Qed.

(** X1. The listing hands out its URLs newest name first: in descending
    order of the URL strings, one for every listed directory entry,
    repeated entries included. *)
Theorem legacy_export_files_order (request : Request.t) (pk : Z)
    (listdir : list string) (db : Database) (items : list (string * string)) :
  ProjectExportFiles_get request pk listdir db
  = Ok (Response (JDict [("export_files", JList (export_file_item <$> items))])
          HTTP_200_OK) →
  StronglySorted (λ u v, String.le v u) items.*2
  ∧ items.*2 ≡ₚ (λ name, EXPORT_URL_ROOT +:+ name)
                  <$> filter (λ name, endswith name ".json" = true
                                      ∧ endswith name "-info.json" = false
                                      ∧ before_first "-" name = str pk) listdir.
Proof.
  intros H.
  apply ProjectExportFiles_get_Ok in H as (found & items' & _ & Hresp & Hurls & _).
  apply Response_inj in Hresp. injection Hresp as Hitems.
  apply (inj (fmap export_file_item)) in Hitems as <-.
  rewrite Hurls. split.
  - apply (Sorted_StronglySorted (flip String.le)).
    apply Sorted_reverse, (Sorted_merge_sort String.le).
  - unfold sorted. by rewrite reverse_Permutation, merge_sort_Permutation.
Qed.

(** X2. With the export URL root [/export/] and a directory whose entry
    names have no [/], every URL the listing of a project hands out is
    accepted by the auth check: sent as [X-Original-URI] by the same
    user, it gets [auth ok] with status 200. *)
Theorem listed_urls_pass_auth_check (request proxied : Request.t) (pk : Z)
    (listdir : list string) (db : Database) (items : list (string * string))
    (url : string) :
  EXPORT_URL_ROOT = "/export/" →
  NoDup (Project.id <$> DB.projects db) →
  Forall (λ name, occurrences "/" name = 0) listdir →
  ProjectExportFiles_get request pk listdir db
  = Ok (Response (JDict [("export_files", JList (export_file_item <$> items))])
          HTTP_200_OK) →
  url ∈ items.*2 →
  Request.user proxied = Request.user request →
  Request.META proxied !! "HTTP_X_ORIGINAL_URI" = Some url →
  ProjectExportFilesAuthCheck_get proxied db
  = Ok (Response (JDict [("detail", JStr "auth ok")]) HTTP_200_OK).
Proof.
  intros Hroot Hnd Hnames H Hurl Huser Hmeta.
  apply ProjectExportFiles_get_Ok in H
    as (found & items' & Hfound & Hresp & Hurls & _).
  apply Response_inj in Hresp. injection Hresp as Hitems.
  apply (inj (fmap export_file_item)) in Hitems as <-.
  rewrite Hurls in Hurl.
  apply elem_of_listed_urls in Hurl as (name & Hname & -> & _ & _ & Hpk).
  rewrite Forall_forall in Hnames. specialize (Hnames _ Hname).
  apply get_object_Ok in Hfound as [Hfound _].
  apply get_object_or_404_Ok in Hfound as [Hin <-].
  unfold ProjectExportFilesAuthCheck_get. rewrite Hmeta, Hroot.
  cbn [mbind result_bind].
  rewrite (replace_leading "/" "export/" EmptyString name).
  change (EmptyString +:+ ?s) with s.
  rewrite (replace_absent "/" "export/" EmptyString name Hnames).
  rewrite getitem_split_0. cbn [mbind result_bind].
  rewrite Hpk, int_str.
  assert (organization_projects proxied db = organization_projects request db)
    as -> by (unfold organization_projects; by rewrite Huser).
  rewrite get_object_or_404_found; [done| |done].
  eapply sublist_NoDup; [exact Hnd|]. apply fmap_sublist, sublist_filter.
Qed.

(** X3. With an export URL root of the shape [a/b/] and entry names
    without [/], the [name] of every item is the entry's name up to its
    first [.], and its [url] is the root followed by the entry's name. *)
Theorem legacy_export_files_item_names (request : Request.t) (pk : Z)
    (listdir : list string) (db : Database) (items : list (string * string))
    (a b : string) :
  split "/" EXPORT_URL_ROOT = [a; b; EmptyString] →
  Forall (λ name, occurrences "/" name = 0) listdir →
  ProjectExportFiles_get request pk listdir db
  = Ok (Response (JDict [("export_files", JList (export_file_item <$> items))])
          HTTP_200_OK) →
  Forall (λ item, ∃ name, name ∈ listdir
                          ∧ item.2 = EXPORT_URL_ROOT +:+ name
                          ∧ item.1 = before_first "." name) items.
Proof.
  intros Hroot Hnames H.
  apply ProjectExportFiles_get_Ok in H
    as (found & items' & _ & Hresp & Hurls & Hall).
  apply Response_inj in Hresp. injection Hresp as Hitems.
  apply (inj (fmap export_file_item)) in Hitems as <-.
  rewrite Forall_forall in Hnames.
  apply Forall_forall. intros [n u] Hitem.
  rewrite Forall_forall in Hall. specialize (Hall _ Hitem). simpl in Hall.
  assert (u ∈ items.*2) as Hu by (by apply (list_elem_of_fmap_2' snd _ (n, u))).
  rewrite Hurls in Hu.
  apply elem_of_listed_urls in Hu as (name & Hname & -> & _).
  exists name. split_and!; [done|done|]. simpl.
  unfold ProjectExportFiles_item in Hall.
  rewrite (split_append "/" EXPORT_URL_ROOT name (Hnames _ Hname)
             [a; b] EmptyString Hroot) in Hall.
  change (getitem ([a; b] ++ [EmptyString +:+ name]) 2) with (Ok name) in Hall.
  cbn [mbind result_bind] in Hall. rewrite getitem_split_0 in Hall.
  cbn [mbind result_bind] in Hall.
  unfold export_file_item in Hall. by injection Hall as <-.
Qed.

Lemma mapM_Raise_head {A B} (f : A → result B) (x : A) (l : list A) (e : exn) :
  f x = Raise e → mapM f (x :: l) = Raise e.
Proof. intros Hx. simpl. by rewrite Hx. Qed.

(** X4. With an export URL root that has fewer than two [/] and entry
    names without [/], the listing fails with [IndexError] as soon as
    one directory entry is to be listed. *)
Theorem legacy_export_files_short_root (request : Request.t) (pk : Z)
    (listdir : list string) (db : Database) (found project : Project.t)
    (name : string) :
  occurrences "/" EXPORT_URL_ROOT < 2 →
  Forall (λ name, occurrences "/" name = 0) listdir →
  get_object request (organization_projects request db) Project.id
    has_project_permission pk = Ok found →
  get_object_with_check_and_log request (DB.projects db) pk = Ok project →
  has_project_permission request project = true →
  name ∈ listdir → ends_with name ".json" → ¬ ends_with name "-info.json" →
  before_first "-" name = str pk →
  ProjectExportFiles_get request pk listdir db = Raise IndexError.
Proof.
  intros Hroot Hnames Hfound Hproject Hallowed Hname Hj Hi Hpk.
  unfold ProjectExportFiles_get.
  rewrite Hfound. cbn [mbind result_bind].
  rewrite Hproject. cbn [mbind result_bind].
  rewrite Hallowed. cbn [check_object_permissions mbind result_bind].
  rewrite ProjectExportFiles_paths_Ok. cbn [mbind result_bind].
  set (urls := reverse (sorted _)).
  assert (∀ url, url ∈ urls → ProjectExportFiles_item url = Raise IndexError)
    as Hfail.
  { intros url (name' & Hname' & -> & _)%elem_of_listed_urls.
    unfold ProjectExportFiles_item, getitem.
    rewrite Forall_forall in Hnames.
    destruct (split "/" (EXPORT_URL_ROOT +:+ name') !! 2) eqn:Hseg; [|done].
    apply lookup_lt_Some in Hseg.
    rewrite split_length, occurrences_app, (Hnames _ Hname') in Hseg. lia. }
  destruct urls as [|url urls'] eqn:Hurls.
  - assert (EXPORT_URL_ROOT +:+ name ∈ urls) as Hin; [|by rewrite Hurls in Hin;
      apply elem_of_nil in Hin].
    subst urls. unfold sorted.
    rewrite elem_of_reverse, merge_sort_Permutation.
    apply list_elem_of_fmap_2, list_elem_of_filter.
    by rewrite endswith_spec, endswith_false_spec.
  - rewrite (mapM_Raise_head _ _ _ IndexError); [done|].
    apply Hfail. left.
Qed.

(** *** The export download, continued *)

(** The last field of a split has no separator, and the string is that
    field alone or ends with the separator followed by it. *)
Lemma split_last_spec (sep : ascii) (s : string) :
  ∃ ext, getitem_last (split sep s) = Ok ext
         ∧ occurrences sep ext = 0
         ∧ (s = ext ∨ ∃ p, s = p +:+ String sep ext).
Proof.
  unfold getitem_last. induction s as [|c s IH].
  - exists EmptyString. split_and!; [done|done|by left].
  - destruct IH as (ext & Hlast & Hext & Hs).
    destruct (last (split sep s)) as [ext'|] eqn:Hl; [|done].
    injection Hlast as ->.
    pose proof (split_length sep s) as Hlen.
    cbn [split]. destruct (Ascii.eqb_spec c sep) as [->|Hc].
    + exists ext. rewrite last_cons, Hl. split_and!; [done|done|right].
      destruct Hs as [->|[p ->]]; [by exists EmptyString|by exists (String sep p)].
    + destruct (split sep s) as [|h t] eqn:Hsplit; [done|].
      destruct t as [|h' t].
      * injection Hl as ->. exists (String c ext).
        destruct Hs as [->|[p ->]].
        -- split_and!; [done| |by left]. cbn [occurrences].
           destruct (Ascii.eqb_spec c sep); [done|]. by rewrite Hext.
        -- rewrite occurrences_app in Hlen. cbn [occurrences length] in Hlen.
           rewrite Ascii.eqb_refl in Hlen. lia.
      * exists ext. rewrite last_cons_cons. rewrite last_cons_cons in Hl.
        split_and!; [by rewrite Hl|done|right].
        destruct Hs as [->|[p ->]]; [|by exists (String c p)].
        rewrite (split_absent sep ext Hext) in Hsplit. done.
Qed.


(** X6. A completed export downloaded with an [exportType] parameter is
    answered from [convert_file] for that type and never from the stored
    file: no converted file gives 404 with the text [Can't get file], a
    converted file is streamed under its own name, and an exception of
    the converter is the handler's. *)
Theorem export_download_converts_on_request (request : Request.t)
    (pk export_pk : Z) (db : Database) (queryset : list Export)
    (instance : Export) (export_type : string) :
  ExportDownloadAPI_get_queryset request pk db = Ok queryset →
  get_object request queryset ExportModel.id has_export_permission export_pk
  = Ok instance →
  ExportModel.status instance = COMPLETED →
  get (Request.GET request) "exportType" = Some export_type →
  (convert_file instance export_type = Ok None →
     ExportDownloadAPI_get request pk export_pk db
     = Ok (HttpResponse_new (Text "Can't get file") default_content_type 404))
  ∧ (∀ converted name,
       convert_file instance export_type = Ok (Some converted) →
       FieldFile.name converted = Some name →
       ∃ response,
         ExportDownloadAPI_get request pk export_pk db = Ok response
         ∧ status_code response = 200%Z
         ∧ content response = FileStream (FieldFile.bytes converted)
         ∧ headers response !! "filename" = Some name)
  ∧ (∀ e, convert_file instance export_type = Raise e →
          ExportDownloadAPI_get request pk export_pk db = Raise e).
Proof.
  intros Hqs Hobj Hst Htype.
  unfold ExportDownloadAPI_get. rewrite Hqs. cbn [mbind result_bind].
  rewrite Hobj. cbn [mbind result_bind].
  rewrite bool_decide_eq_false_2 by (by intros ?). rewrite Htype.
  split_and!.
  - by intros ->.
  - intros converted name -> Hname. cbn [mbind result_bind]. rewrite Hname.
    cbn [mbind result_bind].
    destruct (split_last_spec "." name) as (ext & -> & _).
    cbn [mbind result_bind]. eexists. split; [reflexivity|].
    split_and!; [done|done|]. apply lookup_insert_eq.
  - by intros e ->.
Qed.

(** X7. Whatever the download handler answers is one of two things: 404
    with one of its two texts, or 200 with a file body and the same file
    name in the [filename] and [Content-Disposition] headers. *)
Theorem export_download_responses (request : Request.t) (pk export_pk : Z)
    (db : Database) (response : HttpResponse) :
  ExportDownloadAPI_get request pk export_pk db = Ok response →
  (status_code response = 404%Z
   ∧ (content response = Text "Export is not completed"
      ∨ content response = Text "Can't get file"))
  ∨ (status_code response = 200%Z
     ∧ ∃ bytes name,
         content response = FileStream bytes
         ∧ headers response !! "filename" = Some name
         ∧ headers response !! "Content-Disposition"
           = Some ("attachment; filename=" +:+ dquote +:+ name +:+ dquote)).
Proof.
  unfold ExportDownloadAPI_get. intros H.
  apply bind_Ok_inv in H as (queryset & _ & H).
  apply bind_Ok_inv in H as (instance & _ & H).
  case_bool_decide.
  { injection H as <-. left. split; [done|by left]. }
  apply bind_Ok_inv in H as ([file_|] & _ & H).
  - apply bind_Ok_inv in H as (name & _ & H).
    apply bind_Ok_inv in H as (ext & _ & H). injection H as <-.
    right. split; [done|]. eexists _, name. split_and!; [done|..].
    + apply lookup_insert_eq.
    + cbn [setitem headers]. rewrite lookup_insert_ne by done.
      apply lookup_insert_eq.
  - injection H as <-. left. split; [done|by right].
Qed.

(** *** Export jobs, continued *)

(** X8. The three option entries travel to [run_file_exporting] only:
    the row that a create request saves holds the validated data without
    them, every other entry unchanged, and so does the serializer
    afterwards. *)
Theorem export_create_stores_remaining_fields (request : Request.t)
    (pk now : Z) (serializer : Serializer.t Status) (db : Database)
    (project : Project.t)
    (task_filter_options annotation_filter_options serialization_options : json) :
  Serializer.validated_data serializer !! "task_filter_options"
  = Some task_filter_options →
  Serializer.validated_data serializer !! "annotation_filter_options"
  = Some annotation_filter_options →
  Serializer.validated_data serializer !! "serialization_options"
  = Some serialization_options →
  _get_project request pk db = Ok project →
  ∃ (instance : Export) (saved : Database) (serializer' : Serializer.t Status),
    ExportListAPI_perform_create request pk now serializer db
    = (db' ← run_file_exporting instance task_filter_options
               annotation_filter_options serialization_options saved;
       mret (serializer', db'))
    ∧ instance ∈ DB.exports saved
    ∧ Serializer.validated_data serializer' = ExportModel.fields instance
    ∧ ExportModel.fields instance !! "task_filter_options" = None
    ∧ ExportModel.fields instance !! "annotation_filter_options" = None
    ∧ ExportModel.fields instance !! "serialization_options" = None
    ∧ ∀ key, key ∉ ["task_filter_options"; "annotation_filter_options";
                    "serialization_options"] →
             ExportModel.fields instance !! key
             = Serializer.validated_data serializer !! key.
Proof.
  intros Ht Ha Hs Hproject.
  unfold ExportListAPI_perform_create, pop. rewrite Ht.
  cbn [mbind result_bind]. rewrite lookup_delete_ne by done. rewrite Ha.
  cbn [mbind result_bind]. rewrite !lookup_delete_ne by done. rewrite Hs.
  cbn [mbind result_bind]. rewrite Hproject.
  cbn [mbind result_bind Serializer_save Serializer.instance
       Serializer.validated_data].
  eexists _, _, _. split; [reflexivity|].
  cbn [DB.exports ExportModel.fields Serializer.validated_data].
  split_and!.
  - apply elem_of_app. right. left.
  - done.
  - rewrite !lookup_delete_ne by done. apply lookup_delete_eq.
  - rewrite lookup_delete_ne by done. apply lookup_delete_eq.
  - apply lookup_delete_eq.
  - intros key Hkey. rewrite !not_elem_of_cons in Hkey.
    destruct Hkey as (? & ? & ? & _). by rewrite !lookup_delete_ne.
Qed.

(** X9. A create request whose validated data lacks one of the three
    option entries fails with [KeyError] before the project is looked up;
    with the entries there and no project to be found, it fails as the
    lookup fails. *)
Theorem export_create_failures (request : Request.t) (pk now : Z)
    (serializer : Serializer.t Status) (db : Database) :
  let validated_data := Serializer.validated_data serializer in
  ((validated_data !! "task_filter_options" = None
    ∨ validated_data !! "annotation_filter_options" = None
    ∨ validated_data !! "serialization_options" = None) →
   ExportListAPI_perform_create request pk now serializer db = Raise KeyError)
  ∧ (∀ e, is_Some (validated_data !! "task_filter_options") →
          is_Some (validated_data !! "annotation_filter_options") →
          is_Some (validated_data !! "serialization_options") →
          _get_project request pk db = Raise e →
          ExportListAPI_perform_create request pk now serializer db = Raise e).
Proof.
  intros validated_data. subst validated_data.
  unfold ExportListAPI_perform_create, pop. split.
  - intros Hmissing.
    destruct (_ !! "task_filter_options") as [t|] eqn:Ht; [|done].
    cbn [mbind result_bind]. rewrite lookup_delete_ne by done.
    destruct (_ !! "annotation_filter_options") as [a|] eqn:Ha; [|done].
    cbn [mbind result_bind]. rewrite !lookup_delete_ne by done.
    destruct (_ !! "serialization_options") as [s|] eqn:Hs; [|done].
    by destruct Hmissing as [?|[?|?]].
  - intros e [t Ht] [a Ha] [s Hs] Hproject. rewrite Ht.
    cbn [mbind result_bind]. rewrite lookup_delete_ne by done. rewrite Ha.
    cbn [mbind result_bind]. rewrite !lookup_delete_ne by done. rewrite Hs.
    cbn [mbind result_bind]. by rewrite Hproject.
Qed.

(** X10. After a delete that succeeded the export is gone: retrieving,
    deleting or downloading it again fails with [Http404].  Every other
    export, and every project and task, is where it was. *)
Theorem export_delete_then_gone (request : Request.t) (pk export_pk : Z)
    (db db' : Database) (response : HttpResponse) :
  ExportDetailAPI_delete request pk export_pk db = Ok (response, db') →
  status_code response = 204%Z
  ∧ ExportDetailAPI_get request pk export_pk db' = Raise Http404
  ∧ ExportDetailAPI_delete request pk export_pk db' = Raise Http404
  ∧ ExportDownloadAPI_get request pk export_pk db' = Raise Http404
  ∧ (∀ e, ExportModel.id e ≠ export_pk →
          e ∈ DB.exports db' ↔ e ∈ DB.exports db)
  ∧ DB.projects db' = DB.projects db
  ∧ DB.tasks db' = DB.tasks db.
Proof.
  unfold ExportDetailAPI_delete at 1, ExportDetailAPI_get_queryset.
  intros H. apply bind_Ok_inv in H as (queryset & Hqs & H).
  apply bind_Ok_inv in Hqs as (project & Hproject & Hqs).
  injection Hqs as <-.
  apply bind_Ok_inv in H as (instance & Hobj & H). injection H as <- <-.
  apply get_object_Ok in Hobj as [Hobj _].
  apply get_object_or_404_Ok in Hobj as [_ Hid].
  assert (_get_project request pk (Export_delete instance db) = Ok project)
    as Hproject' by exact Hproject.
  assert (get_object request
            (filter (λ e, ExportModel.project e = Project.id project)
               (DB.exports (Export_delete instance db)))
            ExportModel.id has_export_permission export_pk = Raise Http404)
    as Hmiss.
  { unfold get_object. rewrite get_object_or_404_missing; [done|].
    intros e [_ He]%list_elem_of_filter. cbn [Export_delete DB.exports] in He.
    apply list_elem_of_filter in He as [Hne _]. by rewrite Hid in Hne. }
  unfold ExportDetailAPI_get, ExportDetailAPI_delete, ExportDownloadAPI_get,
    ExportDetailAPI_get_queryset, ExportDownloadAPI_get_queryset.
  rewrite Hproject'. cbn [mbind result_bind mret result_ret]. rewrite Hmiss.
  split_and!; [done..| |done|done].
  intros e He. cbn [Export_delete DB.exports].
  rewrite list_elem_of_filter, Hid. tauto.
Qed.

(** X11. An export of the project for which the object permission check
    fails is neither shown, deleted nor downloaded: the three detail
    requests fail with [PermissionDenied], whatever the export's
    status. *)
Theorem export_detail_permission_denied (request : Request.t)
    (pk export_pk : Z) (db : Database) (project : Project.t) (e : Export) :
  _get_project request pk db = Ok project →
  NoDup (ExportModel.id <$> DB.exports db) →
  e ∈ DB.exports db → ExportModel.id e = export_pk →
  ExportModel.project e = pk →
  has_export_permission request e = false →
  ExportDetailAPI_get request pk export_pk db = Raise PermissionDenied
  ∧ ExportDetailAPI_delete request pk export_pk db = Raise PermissionDenied
  ∧ ExportDownloadAPI_get request pk export_pk db = Raise PermissionDenied.
Proof.
  intros Hproject Hnd He <- Hp Hdenied.
  pose proof (_get_project_Ok _ _ _ _ Hproject) as Hpk.
  assert (get_object request
            (filter (λ e, ExportModel.project e = Project.id project)
               (DB.exports db))
            ExportModel.id has_export_permission (ExportModel.id e)
          = Raise PermissionDenied) as Hobj.
  { unfold get_object. rewrite get_object_or_404_found.
    - cbn [mbind result_bind]. by rewrite Hdenied.
    - eapply sublist_NoDup; [exact Hnd|]. apply fmap_sublist, sublist_filter.
    - apply list_elem_of_filter. by rewrite Hpk. }
  unfold ExportDetailAPI_get, ExportDetailAPI_delete, ExportDownloadAPI_get,
    ExportDetailAPI_get_queryset, ExportDownloadAPI_get_queryset.
  rewrite Hproject. cbn [mbind result_bind mret result_ret]. by rewrite Hobj.
Qed.

(** *** The auth check, continued *)


(** *** The synchronous export, continued *)

Lemma mapM_int_Raise (values : list string) (v : string) :
  v ∈ values → int v = Raise ValueError → mapM int values = Raise ValueError.
Proof.
  induction values as [|x values IH]; intros Hv Hint;
    [by apply elem_of_nil in Hv|].
  cbn [mapM]. destruct (int x) as [n|e] eqn:Hx.
  - apply elem_of_cons in Hv as [->|Hv]; [congruence|].
    cbn [mbind result_bind]. by rewrite IH.
  - by rewrite (int_raises_ValueError _ _ Hx).
Qed.


Lemma batch_length {A} (l : list A) (n : nat) :
  length (batch l n) = (length l + n - 1) `div` n.
Proof. unfold batch. by rewrite length_fmap, length_seq. Qed.


End MoreProperties.

(** *** Projects of other organizations *)

Section FormatsProperties.
Context {settings : Settings} {collab : Collaborators} {formats : ExportFormats}.

(** X14. A project that is not in the requesting user's active
    organization does not exist for the format list, the synchronous
    export and the legacy listing: all three fail with [Http404], whatever
    the query parameters are. *)
Theorem foreign_projects_are_not_found (request : Request.t) (pk : Z)
    (listdir : list string) (db : DB.t Status) :
  (∀ p, p ∈ DB.projects db → Project.id p = pk →
        Project.organization p
        ≠ User.active_organization (Request.user request)) →
  ExportFormatsListAPI_get request pk db = Raise Http404
  ∧ ExportAPI_get request pk db = Raise Http404
  ∧ ProjectExportFiles_get request pk listdir db = Raise Http404.
Proof.
  intros Hforeign.
  assert (get_object request (organization_projects request db) Project.id
            has_project_permission pk = Raise Http404) as Hmiss.
  { unfold get_object. rewrite get_object_or_404_missing; [done|].
    intros p [Horg Hp]%list_elem_of_filter Hid. by apply (Hforeign p). }
  unfold ExportFormatsListAPI_get, ExportAPI_get, ProjectExportFiles_get.
  by rewrite Hmiss.
Qed.

(** X16. The format list, the synchronous export and the legacy listing
    answer only for a project of the requesting user's active organization
    on which the user has the object permission. *)
Theorem project_views_answer_for_own_projects (request : Request.t) (pk : Z)
    (listdir : list string) (db : DB.t Status) (response : HttpResponse) :
  ExportFormatsListAPI_get request pk db = Ok response
  ∨ ExportAPI_get request pk db = Ok response
  ∨ ProjectExportFiles_get request pk listdir db = Ok response →
  ∃ project,
    project ∈ DB.projects db ∧ Project.id project = pk
    ∧ Project.organization project
      = User.active_organization (Request.user request)
    ∧ has_project_permission request project = true.
Proof.
  assert (∀ project,
    get_object request (organization_projects request db) Project.id
      has_project_permission pk = Ok project →
    project ∈ DB.projects db ∧ Project.id project = pk
    ∧ Project.organization project
      = User.active_organization (Request.user request)
    ∧ has_project_permission request project = true) as Hown.
  { intros project [Hp Hallowed]%get_object_Ok.
    by apply get_object_or_404_Ok in Hp as [[? ?]%list_elem_of_filter ?]. }
  intros [H|[H|H]]; apply bind_Ok_inv in H as (project & Hp & _);
    exists project; by apply Hown.
Qed.

End FormatsProperties.

(** ** The statements at work on the sample installation *)

#[local] Existing Instance Sample.settings.
#[local] Existing Instance Sample.collab.

Lemma sample_projects_unique : NoDup (Project.id <$> DB.projects Sample.db).
Proof. apply (bool_decide_unpack _). by vm_compute. Qed.

Lemma export_download_requires_completed_witness :
  ExportDownloadAPI_get_queryset (Sample.request []) 5 Sample.db
  = Ok [Sample.export 1 5 1000 Sample.Completed;
        Sample.export 2 5 3000 Sample.Pending;
        Sample.export 4 5 2000 Sample.Completed]
  ∧ get_object (Sample.request [])
      [Sample.export 1 5 1000 Sample.Completed;
       Sample.export 2 5 3000 Sample.Pending;
       Sample.export 4 5 2000 Sample.Completed]
      ExportModel.id has_export_permission 2
    = Ok (Sample.export 2 5 3000 Sample.Pending)
  ∧ ExportDownloadAPI_get (Sample.request []) 5 2 Sample.db
    = Ok (HttpResponse_new (Text "Export is not completed")
            default_content_type 404).
Proof.
  assert (ExportDownloadAPI_get_queryset (Sample.request []) 5 Sample.db
          = Ok [Sample.export 1 5 1000 Sample.Completed;
                Sample.export 2 5 3000 Sample.Pending;
                Sample.export 4 5 2000 Sample.Completed]) as Hqs
    by (vm_compute; reflexivity).
  assert (get_object (Sample.request [])
            [Sample.export 1 5 1000 Sample.Completed;
             Sample.export 2 5 3000 Sample.Pending;
             Sample.export 4 5 2000 Sample.Completed]
            ExportModel.id has_export_permission 2
          = Ok (Sample.export 2 5 3000 Sample.Pending)) as Hobj
    by (vm_compute; reflexivity).
  split; [exact Hqs|]. split; [exact Hobj|].
  apply (export_download_requires_completed _ _ _ _ _ _ Hqs Hobj).
  discriminate.
Defined.




Lemma legacy_export_files_listing_witness :
  let project := {| Project.id := 5; Project.organization := 10 |} in
  get_object (Sample.request [])
    (organization_projects (Sample.request []) Sample.db) Project.id
    has_project_permission 5 = Ok project
  ∧ get_object_with_check_and_log (Sample.request [])
      (DB.projects Sample.db) 5 = Ok project
  ∧ has_project_permission (Sample.request []) project = true
  ∧ 2 ≤ occurrences "/" EXPORT_URL_ROOT
  ∧ ∃ response,
      ProjectExportFiles_get (Sample.request []) 5 Sample.listdir Sample.db
      = Ok response.
Proof.
  intros project.
  assert (get_object (Sample.request [])
            (organization_projects (Sample.request []) Sample.db) Project.id
            has_project_permission 5 = Ok project) as Hfound
    by (vm_compute; reflexivity).
  assert (get_object_with_check_and_log (Sample.request [])
            (DB.projects Sample.db) 5 = Ok project) as Hproject
    by (vm_compute; reflexivity).
  assert (has_project_permission (Sample.request []) project = true)
    as Hallowed by reflexivity.
  assert (2 ≤ occurrences "/" EXPORT_URL_ROOT) as Hroot
    by (vm_compute; apply le_n).
  split_and!; [exact Hfound|exact Hproject|exact Hallowed|exact Hroot|].
  apply (legacy_export_files_listing (collab := Sample.collab) (Sample.request []) 5 Sample.listdir
           Sample.db project project Hfound Hproject Hallowed).
  exact Hroot.
Defined.

Lemma export_create_saves_and_starts_job_witness :
  let project := {| Project.id := 5; Project.organization := 10 |} in
  Serializer.validated_data Sample.create_serializer
    !! "task_filter_options" = Some (JDict [("annotated", JStr "only")])
  ∧ Serializer.validated_data Sample.create_serializer
      !! "annotation_filter_options" = Some JNone
  ∧ Serializer.validated_data Sample.create_serializer
      !! "serialization_options" = Some (JDict [("drafts", JBool false)])
  ∧ _get_project (Sample.request []) 5 Sample.db = Ok project
  ∧ ∃ instance saved serializer',
      DB.exports saved = DB.exports Sample.db ++ [instance]
      ∧ ExportModel.project instance = 5%Z
      ∧ ExportModel.created_by instance = 1%Z
      ∧ Serializer.instance serializer' = Some instance
      ∧ ExportListAPI_perform_create (Sample.request []) 5 4000
          Sample.create_serializer Sample.db
        = (db' ← run_file_exporting instance
                   (JDict [("annotated", JStr "only")]) JNone
                   (JDict [("drafts", JBool false)]) saved;
           mret (serializer', db')).
Proof.
  intros project.
  assert (Serializer.validated_data Sample.create_serializer
            !! "task_filter_options" = Some (JDict [("annotated", JStr "only")]))
    as Ht by (vm_compute; reflexivity).
  assert (Serializer.validated_data Sample.create_serializer
            !! "annotation_filter_options" = Some JNone)
    as Ha by (vm_compute; reflexivity).
  assert (Serializer.validated_data Sample.create_serializer
            !! "serialization_options" = Some (JDict [("drafts", JBool false)]))
    as Hs by (vm_compute; reflexivity).
  assert (_get_project (Sample.request []) 5 Sample.db = Ok project)
    as Hp by (vm_compute; reflexivity).
  split_and!; [exact Ht|exact Ha|exact Hs|exact Hp|].
  destruct (export_create_saves_and_starts_job (collab := Sample.collab) (Sample.request []) 5 4000
              Sample.create_serializer Sample.db project _ _ _ Ht Ha Hs Hp)
    as (instance & saved & serializer' & H1 & _ & _ & H2 & _ & H3 & H4 & H5).
  exists instance, saved, serializer'.
  split_and!; [exact H1|exact H2|exact H3|exact H4|exact H5].
Defined.

Lemma export_jobs_scoped_to_project_witness :
  _get_project (Sample.request []) 5 Sample.db
  = Ok {| Project.id := 5; Project.organization := 10 |}
  ∧ ExportModel.project (Sample.export 3 6 2000 Sample.Completed) ≠ 5%Z
  ∧ ExportDetailAPI_get (Sample.request []) 5 3 Sample.db = Raise Http404
  ∧ ExportDetailAPI_delete (Sample.request []) 5 3 Sample.db = Raise Http404
  ∧ ExportDownloadAPI_get (Sample.request []) 5 3 Sample.db = Raise Http404.
Proof.
  assert (_get_project (Sample.request []) 5 Sample.db
          = Ok {| Project.id := 5; Project.organization := 10 |}) as Hp
    by (vm_compute; reflexivity).
  split; [exact Hp|]. split; [discriminate|].
  apply (export_jobs_scoped_to_project (collab := Sample.collab) (Sample.request []) 5 3 Sample.db _ Hp).
  intros e He Hid. simpl in He.
  repeat (apply elem_of_cons in He as [->|He]; [by (discriminate || done)|]).
  by apply elem_of_nil in He.
Defined.

Lemma sync_export_response_headers_witness :
  ExportAPI_get (Sample.request [("exportType", "CSV")]) 5 Sample.db
  = Ok (ExportAPI_response "[]" "application/json" "project-5.CSV")
  ∧ ∃ project tasks export_type download_resources export_stream content_type
      filename,
      generate_export_file project tasks export_type download_resources
        [("exportType", "CSV")] = Ok (export_stream, content_type, filename)
      ∧ content (ExportAPI_response "[]" "application/json" "project-5.CSV")
        = FileStream export_stream
      ∧ headers (ExportAPI_response "[]" "application/json" "project-5.CSV")
          !! "Content-Type" = Some content_type
      ∧ headers (ExportAPI_response "[]" "application/json" "project-5.CSV")
          !! "Content-Disposition"
        = Some ("attachment; filename=" +:+ dquote +:+ filename +:+ dquote)
      ∧ headers (ExportAPI_response "[]" "application/json" "project-5.CSV")
          !! "filename" = Some filename.
Proof.
  assert (ExportAPI_get (Sample.request [("exportType", "CSV")]) 5 Sample.db
          = Ok (ExportAPI_response "[]" "application/json" "project-5.CSV"))
    as Hget by (vm_compute; reflexivity).
  split; [exact Hget|].
  destruct (sync_export_response_headers (collab := Sample.collab) _ _ _ _ Hget)
    as (project & tasks & export_type & flag & s & ct & fn
        & Hgen & Hbody & _ & Hct & Hcd & Hfn).
  exists project, tasks, export_type, flag, s, ct, fn.
  split_and!; [exact Hgen|exact Hbody|exact Hct|exact Hcd|exact Hfn].
Defined.

Lemma export_jobs_listed_newest_first_witness :
  _get_project (Sample.request []) 5 Sample.db
  = Ok {| Project.id := 5; Project.organization := 10 |}
  ∧ ∃ queryset,
      ExportListAPI_get (Sample.request []) 5 Sample.db
      = Ok (Response (JList (ExportSerializer <$> queryset)) HTTP_200_OK)
      ∧ StronglySorted newest_first queryset
      ∧ queryset ≡ₚ filter (λ e, ExportModel.project e = 5%Z)
                      (DB.exports Sample.db).
Proof.
  assert (_get_project (Sample.request []) 5 Sample.db
          = Ok {| Project.id := 5; Project.organization := 10 |}) as Hp
    by (vm_compute; reflexivity).
  split; [exact Hp|].
  exact (export_jobs_listed_newest_first (collab := Sample.collab) (Sample.request []) 5 Sample.db _ Hp).
Defined.

Lemma sync_export_format_precedence_witness :
  ExportAPI_export_type [("export_type", "CSV"); ("exportType", "COCO")]
  = "COCO"
  ∧ ExportAPI_get
      (Sample.request [("export_type", "CSV"); ("exportType", "COCO")]) 5
      Sample.db
    = Ok (ExportAPI_response "[]" "application/json" "project-5.COCO")
  ∧ ∃ project tasks download_resources generated,
      generate_export_file project tasks "COCO" download_resources
        [("export_type", "CSV"); ("exportType", "COCO")] = Ok generated.
Proof.
  destruct (sync_export_format_precedence (collab := Sample.collab)
              (Sample.request [("export_type", "CSV"); ("exportType", "COCO")])
              5 Sample.db) as (Htype & _ & _ & Hused).
  assert (ExportAPI_get
            (Sample.request [("export_type", "CSV"); ("exportType", "COCO")])
            5 Sample.db
          = Ok (ExportAPI_response "[]" "application/json" "project-5.COCO"))
    as Hget by (vm_compute; reflexivity).
  split_and!; [exact Htype|exact Hget|exact (Hused _ Hget)].
Defined.


(** ** The further statements on the sample installation *)

Lemma sample_listdir_flat :
  Forall (λ name, occurrences "/" name = 0) Sample.listdir.
Proof. apply (bool_decide_unpack _). by vm_compute. Qed.

Lemma sample_exports_unique : NoDup (ExportModel.id <$> DB.exports Sample.db).
Proof. apply (bool_decide_unpack _). by vm_compute. Qed.

Lemma sample_listing :
  ProjectExportFiles_get (Sample.request []) 5 Sample.listdir Sample.db
  = Ok (Response
          (JDict [("export_files",
                   JList (export_file_item
                            <$> [("5-at-2021-02-01",
                                  "/export/5-at-2021-02-01.json");
                                 ("5-at-2021-01-01",
                                  "/export/5-at-2021-01-01.json")]))])
          HTTP_200_OK).
Proof. vm_compute. reflexivity. Qed.

Lemma legacy_export_files_order_witness :
  ProjectExportFiles_get (Sample.request []) 5 Sample.listdir Sample.db
  = Ok (Response
          (JDict [("export_files",
                   JList (export_file_item
                            <$> [("5-at-2021-02-01",
                                  "/export/5-at-2021-02-01.json");
                                 ("5-at-2021-01-01",
                                  "/export/5-at-2021-01-01.json")]))])
          HTTP_200_OK)
  ∧ StronglySorted (λ u v, String.le v u)
      ["/export/5-at-2021-02-01.json"; "/export/5-at-2021-01-01.json"].
Proof.
  split; [exact sample_listing|].
  exact (proj1 (legacy_export_files_order (settings := Sample.settings) (collab := Sample.collab)
                  _ _ _ _ _ sample_listing)).
Defined.

Lemma listed_urls_pass_auth_check_witness :
  EXPORT_URL_ROOT = "/export/"
  ∧ Request.META (Sample.proxied "/export/5-at-2021-01-01.json")
      !! "HTTP_X_ORIGINAL_URI" = Some "/export/5-at-2021-01-01.json"
  ∧ ProjectExportFilesAuthCheck_get
      (Sample.proxied "/export/5-at-2021-01-01.json") Sample.db
    = Ok (Response (JDict [("detail", JStr "auth ok")]) HTTP_200_OK).
Proof.
  assert (Request.META (Sample.proxied "/export/5-at-2021-01-01.json")
            !! "HTTP_X_ORIGINAL_URI" = Some "/export/5-at-2021-01-01.json")
    as Hmeta by (vm_compute; reflexivity).
  split; [reflexivity|]. split; [exact Hmeta|].
  apply (listed_urls_pass_auth_check (settings := Sample.settings) (collab := Sample.collab)
           (Sample.request []) _ 5 Sample.listdir Sample.db _
           "/export/5-at-2021-01-01.json" eq_refl sample_projects_unique
           sample_listdir_flat sample_listing);
    [|reflexivity|exact Hmeta].
  right. left.
Defined.

Lemma legacy_export_files_item_names_witness :
  split "/" EXPORT_URL_ROOT = [EmptyString; "export"; EmptyString]
  ∧ Forall (λ item, ∃ name, name ∈ Sample.listdir
                            ∧ item.2 = EXPORT_URL_ROOT +:+ name
                            ∧ item.1 = before_first "." name)
      [("5-at-2021-02-01", "/export/5-at-2021-02-01.json");
       ("5-at-2021-01-01", "/export/5-at-2021-01-01.json")].
Proof.
  split; [reflexivity|].
  exact (legacy_export_files_item_names (settings := Sample.settings) (collab := Sample.collab)
           _ _ _ _ _ EmptyString "export" eq_refl sample_listdir_flat
           sample_listing).
Defined.

Lemma legacy_export_files_short_root_witness :
  @occurrences "/" (@EXPORT_URL_ROOT Sample2.flat_settings) < 2
  ∧ @ProjectExportFiles_get Sample2.flat_settings Sample.collab
      (Sample.request []) 5 Sample.listdir Sample.db = Raise IndexError.
Proof.
  assert (occurrences "/" (@EXPORT_URL_ROOT Sample2.flat_settings) < 2)
    as Hroot by (vm_compute; lia).
  split; [exact Hroot|].
  apply (legacy_export_files_short_root (settings := Sample2.flat_settings)
           (collab := Sample.collab) (Sample.request []) 5 Sample.listdir
           Sample.db Sample2.project5 Sample2.project5
           "5-at-2021-01-01.json" Hroot sample_listdir_flat).
  - vm_compute. reflexivity.
  - vm_compute. reflexivity.
  - reflexivity.
  - left.
  - apply endswith_spec. vm_compute. reflexivity.
  - apply endswith_false_spec. vm_compute. reflexivity.
  - vm_compute. reflexivity.
Defined.

Lemma sample_download_queryset :
  ExportDownloadAPI_get_queryset (Sample.request [("export_type", "CSV")]) 5
    Sample.db
  = Ok [Sample.export 1 5 1000 Sample.Completed;
        Sample.export 2 5 3000 Sample.Pending;
        Sample.export 4 5 2000 Sample.Completed].
Proof. vm_compute. reflexivity. Qed.


Lemma export_download_converts_on_request_witness :
  get (Request.GET (Sample.request [("exportType", "CSV")])) "exportType"
  = Some "CSV"
  ∧ ∃ response,
      ExportDownloadAPI_get (Sample.request [("exportType", "CSV")]) 5 1
        Sample.db = Ok response
      ∧ status_code response = 200%Z
      ∧ content response = FileStream "[]"
      ∧ headers response !! "filename" = Some "export.CSV".
Proof.
  split; [reflexivity|].
  assert (ExportDownloadAPI_get_queryset
            (Sample.request [("exportType", "CSV")]) 5 Sample.db
          = Ok [Sample.export 1 5 1000 Sample.Completed;
                Sample.export 2 5 3000 Sample.Pending;
                Sample.export 4 5 2000 Sample.Completed]) as Hqs
    by (vm_compute; reflexivity).
  destruct (export_download_converts_on_request (collab := Sample.collab)
              (Sample.request [("exportType", "CSV")]) 5 1 Sample.db _
              (Sample.export 1 5 1000 Sample.Completed) "CSV"
              Hqs eq_refl eq_refl eq_refl) as (_ & Hconverted & _).
  exact (Hconverted _ "export.CSV" eq_refl eq_refl).
Defined.

Lemma export_download_responses_witness :
  ExportDownloadAPI_get (Sample.request []) 5 2 Sample.db
  = Ok (HttpResponse_new (Text "Export is not completed")
          default_content_type 404)
  ∧ status_code (HttpResponse_new (Text "Export is not completed")
                   default_content_type 404) ≠ 200%Z.
Proof.
  assert (ExportDownloadAPI_get (Sample.request []) 5 2 Sample.db
          = Ok (HttpResponse_new (Text "Export is not completed")
                  default_content_type 404)) as Hget
    by (vm_compute; reflexivity).
  split; [exact Hget|].
  destruct (export_download_responses (collab := Sample.collab) _ _ _ _ _ Hget)
    as [[Hst _]|[Hst _]]; [|discriminate Hst].
  discriminate.
Defined.

Lemma export_create_stores_remaining_fields_witness :
  _get_project (Sample.request []) 5 Sample.db = Ok Sample2.project5
  ∧ ∃ instance saved serializer',
      ExportListAPI_perform_create (Sample.request []) 5 4000
        Sample.create_serializer Sample.db
      = (db' ← run_file_exporting instance
                 (JDict [("annotated", JStr "only")]) JNone
                 (JDict [("drafts", JBool false)]) saved;
         mret (serializer', db'))
      ∧ ExportModel.fields instance !! "task_filter_options" = None
      ∧ ExportModel.fields instance !! "title" = Some (JStr "nightly").
Proof.
  assert (_get_project (Sample.request []) 5 Sample.db = Ok Sample2.project5)
    as Hp by (vm_compute; reflexivity).
  split; [exact Hp|].
  destruct (export_create_stores_remaining_fields (collab := Sample.collab)
              (Sample.request []) 5 4000 Sample.create_serializer Sample.db
              Sample2.project5 (JDict [("annotated", JStr "only")]) JNone
              (JDict [("drafts", JBool false)]) eq_refl eq_refl eq_refl Hp)
    as (instance & saved & serializer' & H1 & _ & _ & H2 & _ & _ & Hkeep).
  exists instance, saved, serializer'. split_and!; [exact H1|exact H2|].
  rewrite Hkeep; [reflexivity|].
  apply (bool_decide_unpack _). by vm_compute.
Defined.

Lemma export_create_failures_witness :
  ExportListAPI_perform_create (Sample.request []) 5 4000
    {| Serializer.validated_data := {[ "title" := JStr "nightly" ]};
       Serializer.instance := None |} Sample.db
  = Raise KeyError.
Proof.
  destruct (export_create_failures (collab := Sample.collab)
              (Sample.request []) 5 4000
              {| Serializer.validated_data := {[ "title" := JStr "nightly" ]};
                 Serializer.instance := None |} Sample.db) as [Hmissing _].
  apply Hmissing. left. reflexivity.
Defined.

Lemma export_delete_then_gone_witness :
  ExportDetailAPI_delete (Sample.request []) 5 1 Sample.db
  = Ok (Response JNone 204,
        Export_delete (Sample.export 1 5 1000 Sample.Completed) Sample.db)
  ∧ ExportDetailAPI_get (Sample.request []) 5 1
      (Export_delete (Sample.export 1 5 1000 Sample.Completed) Sample.db)
    = Raise Http404
  ∧ ExportDownloadAPI_get (Sample.request []) 5 1
      (Export_delete (Sample.export 1 5 1000 Sample.Completed) Sample.db)
    = Raise Http404.
Proof.
  assert (ExportDetailAPI_delete (Sample.request []) 5 1 Sample.db
          = Ok (Response JNone 204,
                Export_delete (Sample.export 1 5 1000 Sample.Completed)
                  Sample.db)) as Hdel by (vm_compute; reflexivity).
  split; [exact Hdel|].
  destruct (export_delete_then_gone (collab := Sample.collab) _ _ _ _ _ _ Hdel)
    as (_ & Hget & _ & Hdownload & _).
  split; [exact Hget|exact Hdownload].
Defined.

Lemma export_detail_permission_denied_witness :
  @_get_project Sample2.locked (Sample.request []) 5 Sample.db
  = Ok Sample2.project5
  ∧ @has_export_permission Sample2.locked (Sample.request [])
      (Sample.export 1 5 1000 Sample.Completed) = false
  ∧ @ExportDetailAPI_get Sample2.locked (Sample.request []) 5 1 Sample.db
    = Raise PermissionDenied
  ∧ @ExportDetailAPI_delete Sample2.locked (Sample.request []) 5 1 Sample.db
    = Raise PermissionDenied
  ∧ @ExportDownloadAPI_get Sample2.locked (Sample.request []) 5 1 Sample.db
    = Raise PermissionDenied.
Proof.
  assert (@_get_project Sample2.locked (Sample.request []) 5 Sample.db
          = Ok Sample2.project5) as Hp by (vm_compute; reflexivity).
  split; [exact Hp|]. split; [reflexivity|].
  apply (export_detail_permission_denied (collab := Sample2.locked)
           (Sample.request []) 5 1 Sample.db Sample2.project5
           (Sample.export 1 5 1000 Sample.Completed) Hp sample_exports_unique);
    [left|reflexivity|reflexivity|reflexivity].
Defined.




Lemma foreign_projects_are_not_found_witness :
  @ExportFormatsListAPI_get Sample.collab Sample2.formats (Sample.request [])
    7 Sample.db = Raise Http404
  ∧ ExportAPI_get (Sample.request []) 7 Sample.db = Raise Http404
  ∧ ProjectExportFiles_get (Sample.request []) 7 Sample.listdir Sample.db
    = Raise Http404.
Proof.
  apply (foreign_projects_are_not_found (collab := Sample.collab)
           (formats := Sample2.formats)).
  intros p Hp Hid. simpl in Hp.
  repeat (apply elem_of_cons in Hp as [->|Hp]; [by (discriminate || done)|]).
  by apply elem_of_nil in Hp.
Defined.

Lemma project_views_answer_for_own_projects_witness :
  @ExportFormatsListAPI_get Sample.collab Sample2.formats (Sample.request [])
    5 Sample.db
  = Ok (Response (JList [JStr "JSON"; JStr "CSV"]) HTTP_200_OK)
  ∧ ∃ project,
      project ∈ DB.projects Sample.db ∧ Project.id project = 5%Z
      ∧ Project.organization project = 10%Z
      ∧ has_project_permission (Sample.request []) project = true.
Proof.
  assert (@ExportFormatsListAPI_get Sample.collab Sample2.formats
            (Sample.request []) 5 Sample.db
          = Ok (Response (JList [JStr "JSON"; JStr "CSV"]) HTTP_200_OK))
    as Hget by (vm_compute; reflexivity).
  split; [exact Hget|].
  exact (project_views_answer_for_own_projects (collab := Sample.collab)
           (formats := Sample2.formats) (Sample.request []) 5 Sample.listdir
           Sample.db _ (or_introl Hget)).
Defined.
